(** * azure-cli: the profile commands and the generated
      [network vnet check-ip-address] command

    A shallow embedding of
    - [azure/cli/command_modules/profile/custom.py]
      ([list_subscriptions], [set_active_subscription], [login]);
    - [azure/cli/command_modules/network/aaz/2019_03_01_hybrid/network/vnet/_check_ip_address.py]
      (the [CheckIpAddress] command and its single HTTP operation);
    together with the part of the declarative command framework
    ([azure.cli.core.aaz]) that the generated command configures. *)

From stdpp Require Import base option list strings pretty gmap fin_maps.
From Stdlib Require Import ZArith Ascii.

Set Warnings "-register-all".

(** ** Python values *)

Module Py.

(** The values that flow through the profile commands: [None], booleans,
    integers, strings, lists, nested dictionaries and builtin function
    objects (such as the builtin [id]). *)
Inductive pyval : Type :=
| PyNone
| PyBool (b : bool)
| PyInt (n : Z)
| PyStr (s : string)
| PyList (l : list pyval)
| PyDict (d : list (string * pyval))
| PyBuiltin (name : string).

(** Python truth value testing ([bool(v)]). A function object is always
    true. *)
Definition truthy (v : pyval) : bool :=
  match v with
  | PyNone => false
  | PyBool b => b
  | PyInt n => negb (n =? 0)%Z
  | PyStr s => match s with EmptyString => false | String _ _ => true end
  | PyList l => match l with [] => false | _ => true end
  | PyDict d => match d with [] => false | _ => true end
  | PyBuiltin _ => true
  end.

(** [any(l)] *)
Definition py_any (l : list pyval) : bool := existsb truthy l.

(** [v == s] for a string literal [s] *)
Definition eq_str (v : pyval) (s : string) : bool :=
  match v with
  | PyStr t => String.eqb t s
  | _ => false
  end.

(** A dictionary object with string keys. *)
Abbreviation dict := (gmap string pyval).

(** [d.get(k)] : the value under [k], or [None]. *)
Definition dict_get (k : string) (d : dict) : pyval :=
  default PyNone (d !! k).

(** [d.pop(k, dflt)] : the value under [k] (or [dflt]) and the dictionary
    without [k]. *)
Definition dict_pop (k : string) (dflt : pyval) (d : dict) : pyval * dict :=
  (default dflt (d !! k), delete k d).

(** Objects live in a store and are handed around by reference; a list of
    subscriptions is a list of references into the store, so the same
    dictionary can occur in it more than once. *)
Abbreviation loc := nat.
Abbreviation store := (gmap nat dict).

End Py.

(** ** [profile/custom.py] *)

Module ProfileCustom.
Import Py.

(** Exceptions that leave a command: a [CLIError] of this module, or
    whatever an external collaborator raised. *)
Inductive exn : Type :=
| CLIError (msg : string)
| External (what : string).

(** What a command does to the outside world, in order. *)
Inductive event : Type :=
| Warning (msg : string)
| Print (msg : string)
| ProfileNew
| ProfileSetActiveSubscription (subscription : pyval)
| ProfileLoginInCloudShell
| ProfileLoginWithManagedIdentity (username allow_no_subscriptions : pyval)
| PromptPass (prompt : string)
| BuildCredential (password client_assertion use_cert_sn_issuer : pyval)
| ProfileLogin (interactive : bool)
    (username password service_principal tenant scopes use_device_code
       allow_no_subscriptions use_cert_sn_issuer : pyval)
    (show_progress : bool)
| SubscriptionSelector.

(** Commands run in a writer/error monad: the events so far and either the
    exception raised or the value produced. *)
Definition M (A : Type) : Type := list event * (exn + A).

#[global] Instance M_ret : MRet M := λ A a, ([], inr a).
#[global] Instance M_bind : MBind M := λ A B f m,
  match m with
  | (tr, inl e) => (tr, inl e)
  | (tr, inr a) => let '(tr', r) := f a in (tr ++ tr', r)
  end.

Definition raise {A} (e : exn) : M A := ([], inl e).
Definition emit (e : event) : M unit := ([e], inr tt).
(** A call into a collaborator: the event, then its answer. *)
Definition call {A} (e : event) (answer : exn + A) : M A := ([e], answer).

(** *** [list_subscriptions] *)

Definition dquote : string := String (ascii_of_nat 34) EmptyString.

Definition NOT_LOGGED_IN : string :=
  "Please run " +:+ dquote +:+ "az login" +:+ dquote +:+ " to access your accounts.".
Definition SKIPPED_WARNING : string :=
  "A few accounts are skipped as they don't have 'Enabled' state. " +:+
  "Use '--all' to display them.".

(** [sub['cloudName'] = sub.pop('environmentName', None)] on one
    dictionary. *)
Definition rename_environment (d : dict) : dict :=
  let '(v, d') := dict_pop "environmentName" PyNone d in
  <["cloudName" := v]> d'.

(** [for sub in subscriptions: sub['cloudName'] = sub.pop(...)]: the loop
    updates the objects in place, one reference after the other. *)
Fixpoint rename_all (subscriptions : list loc) (h : store) : store :=
  match subscriptions with
  | [] => h
  | sub :: rest => rename_all rest (alter rename_environment sub h)
  end.

(** [s.get('state') == 'Enabled'] for the object behind [s]. *)
Definition is_enabled (h : store) (s : loc) : bool :=
  match h !! s with
  | Some d => eq_str (dict_get "state" d) "Enabled"
  | None => false
  end.

(** [load_subscriptions(cmd.cli_ctx, all_clouds=all, refresh=refresh)] is
    an import of [azure.cli.core.api]; it is a parameter here and answers
    with a store and the list of references it returns. *)
Definition list_subscriptions
    (load_subscriptions : bool → bool → store * list loc)
    (all refresh : bool) : list string * store * list loc :=
  let '(h, subscriptions) := load_subscriptions all refresh in
  let w1 := match subscriptions with [] => [NOT_LOGGED_IN] | _ => [] end in
  let h := rename_all subscriptions h in
  if negb all then
    let enabled_ones := List.filter (is_enabled h) subscriptions in
    if negb (length enabled_ones =? length subscriptions)
    then (w1 ++ [SKIPPED_WARNING], h, enabled_ones)
    else (w1, h, subscriptions)
  else (w1, h, subscriptions).

(** Every reference a loader hands out points to an object. *)
Definition well_formed (r : store * list loc) : Prop :=
  Forall (λ s, is_Some (r.1 !! s)) r.2.

(** What the renaming loop leaves of a dictionary that was [d0] when it
    was loaded: a [cloudName] key holding the value taken from
    [environmentName] (or [None]), no [environmentName] key, every other
    key as before. *)
Definition renamed (d0 d : dict) : Prop :=
  (d !! "cloudName" = Some (dict_get "environmentName" d0)
   ∨ d !! "cloudName" = Some PyNone)
  ∧ d !! "environmentName" = None
  ∧ ∀ k, k ≠ "cloudName" → k ≠ "environmentName" → d !! k = d0 !! k.

(** How often a reference is listed. *)
Definition occurrences (s : loc) (subscriptions : list loc) : nat :=
  length (List.filter (Nat.eqb s) subscriptions).

(** *** [set_active_subscription] *)

Definition PROVIDE_SUBSCRIPTION : string :=
  "Please provide subscription id or unique name.".

(** The name [id] in [if not id:] is neither a parameter nor a module
    global of [custom.py], so it resolves to the builtin function. *)
Definition id_in_scope : pyval := PyBuiltin "id".

(** [profile_set_active_subscription] is the answer of
    [Profile.set_active_subscription] (it may raise). *)
Definition set_active_subscription
    (profile_set_active_subscription : pyval → exn + unit)
    (subscription : pyval) : M unit :=
  emit ProfileNew ;;
  (if negb (truthy id_in_scope)
   then raise (CLIError PROVIDE_SUBSCRIPTION)
   else mret tt) ;;
  call (ProfileSetActiveSubscription subscription)
       (profile_set_active_subscription subscription).

(** *** [login] *)

Definition nl : string := String (ascii_of_nat 10) EmptyString.

Definition _CLOUD_CONSOLE_LOGIN_WARNING : string :=
  "Cloud Shell is automatically authenticated under the initial account signed-in with." +:+
  " Run 'az login' only if you need to use a different account".

Definition LOGIN_ANNOUNCEMENT : string :=
  "[Announcements]" +:+ nl +:+
  "With the new Azure CLI login experience, you can select the subscription you want to use more easily. " +:+
  "Learn more about it and its configuration at https://go.microsoft.com/fwlink/?linkid=2271236" +:+ nl +:+ nl +:+
  "If you encounter any problem, please open an issue at https://aka.ms/azclibug" +:+ nl.

Definition LOGIN_OUTPUT_WARNING : string :=
  "[WARNING] The login output has been updated. Please be aware that it no longer displays the full list of " +:+
  "available subscriptions by default. To revert to the previous behavior, run " +:+
  "`az config set core.login_experience_v2=off`." +:+ nl.

Definition USAGE_IDENTITY : string :=
  "usage error: '--identity' is not applicable with other arguments".
Definition USAGE_DEVICE_CODE : string :=
  "usage error: '--use-device-code' is not applicable with other arguments".
Definition USAGE_SN_ISSUER : string :=
  "usage error: '--use-sn-issuer' is only applicable with a service principal".
Definition USAGE_SERVICE_PRINCIPAL : string :=
  "usage error: --service-principal --username NAME --password SECRET --tenant TENANT".
Definition NON_INTERACTIVE : string :=
  "Please specify both username and password in non-interactive mode.".

(** The keyword arguments of [login]. *)
Record login_args : Type := {
  username : pyval;
  password : pyval;
  service_principal : pyval;
  tenant : pyval;
  allow_no_subscriptions : pyval;
  identity : pyval;
  use_device_code : pyval;
  use_cert_sn_issuer : pyval;
  scopes : pyval;
  client_assertion : pyval
}.

(** The signature's defaults. *)
Definition login_defaults : login_args := {|
  username := PyNone; password := PyNone; service_principal := PyNone;
  tenant := PyNone; allow_no_subscriptions := PyBool false;
  identity := PyBool false; use_device_code := PyBool false;
  use_cert_sn_issuer := PyNone; scopes := PyNone; client_assertion := PyNone
|}.

Inductive login_result : Type :=
| LoginNone
| LoginValue (v : pyval)
| LoginSubscriptions (h : store) (all_subscriptions : list loc).

(** The collaborators of [login]: the terminal, the configuration, the
    [Profile] object and the credential builder, each given by its answer. *)
Record login_env : Type := {
  in_cloud_console : bool;
  prompt_pass : option pyval;   (* [None] : [NoTTYException] *)
  stdin_isatty : bool;
  stdout_isatty : bool;
  login_experience_v2 : bool;
  login_in_cloud_shell : exn + pyval;
  login_with_managed_identity : pyval → pyval → exn + pyval;
  build_credential : pyval → pyval → pyval → exn + pyval;
  profile_login : bool → login_args → pyval → bool → exn + (store * list loc);
  subscription_selector : store * list loc → exn + pyval;
  profile_set_active_subscription : pyval → exn + unit
}.

Definition when (b : bool) (m : M unit) : M unit := if b then m else mret tt.

(** The "quick argument usage check" at the head of [login]. *)
Definition usage_check (a : login_args) : M unit :=
  when (py_any [password a; service_principal a; tenant a] && truthy (identity a))
       (raise (CLIError USAGE_IDENTITY)) ;;
  when (py_any [password a; service_principal a; username a; identity a]
          && truthy (use_device_code a))
       (raise (CLIError USAGE_DEVICE_CODE)) ;;
  when (truthy (use_cert_sn_issuer a) && negb (truthy (service_principal a)))
       (raise (CLIError USAGE_SN_ISSUER)) ;;
  when (truthy (service_principal a) && negb (truthy (username a)))
       (raise (CLIError USAGE_SERVICE_PRINCIPAL)).

Definition answer_map {A B} (f : A → B) (r : exn + A) : exn + B :=
  match r with inl e => inl e | inr a => inr (f a) end.

Definition login (env : login_env) (a : login_args) : M login_result :=
  usage_check a ;;
  emit ProfileNew ;;
  if truthy (identity a) then
    if in_cloud_console env
    then call ProfileLoginInCloudShell
              (answer_map LoginValue (login_in_cloud_shell env))
    else call (ProfileLoginWithManagedIdentity (username a) (allow_no_subscriptions a))
              (answer_map LoginValue
                 (login_with_managed_identity env (username a) (allow_no_subscriptions a)))
  else
    when (in_cloud_console env) (emit (Warning _CLOUD_CONSOLE_LOGIN_WARNING)) ;;
    '(password1, interactive) ←
      (if truthy (username a) then
         if negb (truthy (password a) || truthy (client_assertion a)) then
           match prompt_pass env with
           | Some p => emit (PromptPass "Password: ") ;; mret (p, false)
           | None => emit (PromptPass "Password: ") ;; raise (CLIError NON_INTERACTIVE)
           end
         else mret (password a, false)
       else mret (password a, true)) ;
    password2 ←
      (if truthy (service_principal a)
       then call (BuildCredential password1 (client_assertion a) (use_cert_sn_issuer a))
                 (build_credential env password1 (client_assertion a) (use_cert_sn_issuer a))
       else mret password1) ;
    let select_subscription :=
      interactive && stdin_isatty env && stdout_isatty env && login_experience_v2 env in
    subscriptions ←
      call (ProfileLogin interactive (username a) password2 (service_principal a)
              (tenant a) (scopes a) (use_device_code a) (allow_no_subscriptions a)
              (use_cert_sn_issuer a) select_subscription)
           (profile_login env interactive a password2 select_subscription) ;
    if select_subscription then
      selected ← call SubscriptionSelector (subscription_selector env subscriptions) ;
      call (ProfileSetActiveSubscription selected)
           (profile_set_active_subscription env selected) ;;
      emit (Print LOGIN_ANNOUNCEMENT) ;;
      emit (Warning LOGIN_OUTPUT_WARNING) ;;
      mret LoginNone
    else
      let '(h, all_subscriptions) := subscriptions in
      mret (LoginSubscriptions (rename_all all_subscriptions h) all_subscriptions).

(** An argument counts as set when Python takes it as true, which is what
    the guards of [login] test. *)
Definition is_set (v : pyval) : Prop := truthy v = true.

Definition is_usage_error (msg : string) : Prop :=
  String.prefix "usage error: " msg = true.

(** The four inconsistent argument combinations. *)
Definition inconsistent (a : login_args) : Prop :=
  (is_set (identity a) ∧
     (is_set (password a) ∨ is_set (service_principal a) ∨ is_set (tenant a)))
  ∨ (is_set (use_device_code a) ∧
     (is_set (password a) ∨ is_set (service_principal a) ∨ is_set (username a)
      ∨ is_set (identity a)))
  ∨ (is_set (use_cert_sn_issuer a) ∧ ¬ is_set (service_principal a))
  ∨ (is_set (service_principal a) ∧ ¬ is_set (username a)).

End ProfileCustom.

(** ** The declarative command framework ([azure.cli.core.aaz])

    The generated command imports everything from [azure.cli.core.aaz];
    that package is not part of the sources at hand. What the command
    needs of it is written here after the design document, each
    definition saying so. *)

Module AAZ.

(** *** Values: decoded JSON and typed results *)

(** A plain nested mapping / sequence / scalar structure. A float is
    carried as its literal text and passed through unmodified. *)
Inductive value : Type :=
| VNull
| VBool (b : bool)
| VInt (n : Z)
| VFloat (literal : string)
| VStr (s : string)
| VList (l : list value)
| VObject (fields : list (string * value)).

(** Lookup in an ordered mapping with string keys. *)
Fixpoint assoc {A} (k : string) (l : list (string * A)) : option A :=
  match l with
  | [] => None
  | (k', a) :: rest => if String.eqb k k' then Some a else assoc k rest
  end.

(** [d[k] = a] on an ordered mapping: overwrite in place, or append. *)
Fixpoint assoc_set {A} (k : string) (a : A) (l : list (string * A))
  : list (string * A) :=
  match l with
  | [] => [(k, a)]
  | (k', a') :: rest =>
      if String.eqb k k' then (k, a) :: rest else (k', a') :: assoc_set k a rest
  end.

(** [{**l1, **l2}] *)
Definition assoc_merge {A} (l1 l2 : list (string * A)) : list (string * A) :=
  fold_left (λ acc kv, assoc_set kv.1 kv.2 acc) l2 l1.

(** *** Errors *)

(** Modelled from the spec: the error taxonomy of the framework (section 7
    of the design document, and [ParameterMissing] of section 4.1); the
    exception classes themselves are declared in [azure.cli.core.aaz]. *)
Inductive error : Type :=
| MissingRequiredArgument (name : string)
| UnknownArgument (name : string)
| ValidationError (name : string)
| ParameterMissing (name : string)
| UrlBuildError (placeholder : string)
| TransportError (detail : string)
| RemoteApiError (code message : option string)
| DeserializationError.

Definition is_missing (e : error) : bool :=
  match e with MissingRequiredArgument _ => true | _ => false end.

Abbreviation result A := (error + A)%type.

#[global] Instance result_ret : MRet (sum error) := λ A a, inr a.
#[global] Instance result_bind : MBind (sum error) := λ A B f m,
  match m with inl e => inl e | inr a => f a end.
#[global] Instance result_fmap : FMap (sum error) := λ A B f m,
  match m with inl e => inl e | inr a => inr (f a) end.

(** *** TypeSchema *)

(** One declared field of an object node: logical name, wire name,
    required flag and the node of its value. *)
Record field_of (T : Type) : Type := Field {
  f_name : string;
  f_wire : string;
  f_required : bool;
  f_schema : T
}.
Arguments Field {T}.
Arguments f_name {T}.
Arguments f_wire {T}.
Arguments f_required {T}.
Arguments f_schema {T}.

(** Modelled from the spec: a TypeSchema node (section 3 of the design
    document): a kind among Bool, Str, Int, Float, Object, List, Any; an
    object carries its ordered declared fields, a list its element node.
    The classes [AAZBoolType], [AAZStrType], [AAZListType], [AAZObjectType]
    are declared in [azure.cli.core.aaz]. *)
Inductive type_schema : Type :=
| TBool
| TStr
| TInt
| TFloat
| TAny
| TList (Element : type_schema)
| TObject (fields : list (field_of type_schema)).

(** Modelled from the spec: response deserialization (section 4.1 of the
    design document); [deserialize_http_content] / [set_var] with a schema
    builder live in [azure.cli.core.aaz]. The walk follows the declared
    schema: an object node maps each declared field from its wire name to
    its logical name, ignores wire fields that are not declared and gives a
    declared field that is absent on the wire the null sentinel; a list
    node deserializes each element against the element node; numbers pass
    through unmodified. A wire null is the null sentinel at every node; any
    other value of the wrong shape is a [DeserializationError]. *)
Fixpoint deserialize (t : type_schema) (v : value) {struct t} : result value :=
  match v with
  | VNull => inr VNull
  | _ =>
    match t with
    | TBool => match v with VBool _ => inr v | _ => inl DeserializationError end
    | TStr => match v with VStr _ => inr v | _ => inl DeserializationError end
    | TInt => match v with VInt _ => inr v | _ => inl DeserializationError end
    | TFloat =>
        match v with VFloat _ | VInt _ => inr v | _ => inl DeserializationError end
    | TAny => inr v
    | TList Element =>
        match v with
        | VList l =>
            VList <$> mapM (deserialize Element) l
        | _ => inl DeserializationError
        end
    | TObject fields =>
        match v with
        | VObject wire =>
            VObject <$>
              mapM (λ f,
                      x ← match assoc (f_wire f) wire with
                          | Some w => deserialize (f_schema f) w
                          | None => inr VNull
                          end ;
                      mret (f_name f, x)) fields
        | _ => inl DeserializationError
        end
    end
  end.

(** Modelled from the spec: flattening (section 4.1): the fields of the
    objects nested one level below the outermost object are lifted to the
    result root, in declaration order; on a name collision the field
    declared last wins. [deserialize_output] is a method of [AAZCommand]
    in [azure.cli.core.aaz]. *)
Definition lift_field (acc : list (string * value)) (kv : string * value)
  : list (string * value) :=
  match kv.2 with
  | VObject inner => assoc_merge acc inner
  | _ => assoc_set kv.1 kv.2 acc
  end.

(** Modelled from the spec: flattening of the outermost object only
    (section 4.1); a value that is not an object is left as it is. *)
Definition flatten (v : value) : value :=
  match v with
  | VObject fields => VObject (fold_left lift_field fields [])
  | _ => v
  end.

(** Modelled from the spec: the output step (section 4.4),
    [AAZCommand.deserialize_output] of [azure.cli.core.aaz]: the typed
    value of the context variable, flattened when [client_flatten] is
    set. *)
Definition deserialize_output (v : value) (client_flatten : bool) : value :=
  if client_flatten then flatten v else v.

(** *** ArgumentSchema *)

(** Modelled from the spec: an argument specification (section 3 of the
    design document): accepted option strings, required flag, default
    value, help text, optional id-fragment marker and a validator
    capability. The classes [AAZStrArg] and [AAZResourceGroupNameArg] are
    declared in [azure.cli.core.aaz]. The logical name is the attribute the
    specification is assigned to in the schema. *)
Record arg_spec : Type := Arg {
  options : list string;
  help : string;
  required : bool;
  default_value : option string;
  id_part : option string;
  validator : string → bool
}.

(** An argument schema: logical name to specification, in declaration
    order. *)
Abbreviation args_schema := (list (string * arg_spec)).

(** Modelled from the spec: [AAZStrArg(options=..., help=..., required=...,
    id_part=...)], a class of [azure.cli.core.aaz]: a string argument
    without default; every string is a valid value for it. *)
Definition AAZStrArg (options : list string) (help : string)
    (required : bool) (id_part : option string) : arg_spec :=
  Arg options help required None id_part (λ _, true).

(** Modelled from the spec: matching of a supplied key against a declared
    argument (section 4.2): a key of the raw mapping designates the
    argument when it is one of its accepted option strings, or its logical
    name (the form the argument sets of section 8 are written in). *)
Definition designates (k : string) (decl : string * arg_spec) : bool :=
  String.eqb k decl.1 || existsb (String.eqb k) (options decl.2).

(** Modelled from the spec: the raw value supplied for a declared
    argument, if any (section 4.2); the first designating key counts. *)
Definition supplied (raw : list (string * string)) (decl : string * arg_spec)
  : option string :=
  snd <$> List.find (λ kv, designates kv.1 decl) raw.

(** Modelled from the spec: the errors one declared argument gives rise
    to (section 4.2): [MissingRequiredArgument] when it is required and
    nothing is supplied, [ValidationError] when its value (supplied, or
    the default of an unset optional argument) is refused by the
    validator. *)
Definition check_arg (raw : list (string * string)) (decl : string * arg_spec)
  : list error :=
  match supplied raw decl with
  | None =>
      if required decl.2 then [MissingRequiredArgument decl.1]
      else match default_value decl.2 with
           | Some v => if validator decl.2 v then [] else [ValidationError decl.1]
           | None => []
           end
  | Some v => if validator decl.2 v then [] else [ValidationError decl.1]
  end.

(** Modelled from the spec: the errors a supplied key gives rise to
    (section 4.2): [UnknownArgument] when it designates no declared
    argument. *)
Definition check_key (schema : args_schema) (kv : string * string) : list error :=
  if existsb (designates kv.1) schema then [] else [UnknownArgument kv.1].

(** Modelled from the spec: the value of a declared argument (section
    4.2): what was supplied, else the default, else unset. *)
Definition arg_value (raw : list (string * string)) (decl : string * arg_spec)
  : string * option string :=
  (decl.1, match supplied raw decl with
           | Some v => Some v
           | None => default_value decl.2
           end).

(** Modelled from the spec: validation is total (section 4.2): every
    declared argument and every supplied key is checked and the errors are
    collected in one list. *)
Definition validation_errors (schema : args_schema) (raw : list (string * string))
  : list error :=
  flat_map (check_arg raw) schema ++ flat_map (check_key schema) raw.

(** Modelled from the spec: [build] (section 4.2 of the design document),
    the validation that [AAZCommand._handler] runs in
    [azure.cli.core.aaz]: only an error-free raw mapping yields the
    validated arguments, which are exactly the declared ones. *)
Definition build (schema : args_schema) (raw : list (string * string))
  : list error + list (string * option string) :=
  match validation_errors schema raw with
  | [] => inr (arg_value raw <$> schema)
  | errs => inl errs
  end.

(** The raw mapping supplies nothing for a declared argument. *)
Definition omitted (raw : list (string * string)) (decl : string * arg_spec) : bool :=
  match supplied raw decl with None => true | Some _ => false end.

(** The raw mapping supplies something for the argument declared under
    [name]. *)
Definition supplies (raw : list (string * string)) (schema : args_schema)
    (name : string) : bool :=
  match assoc name schema with
  | Some a => negb (omitted raw (name, a))
  | None => false
  end.

(** The required arguments of a schema that the raw mapping omits, in
    declaration order. *)
Definition missing_required (schema : args_schema) (raw : list (string * string))
  : list string :=
  fst <$> List.filter (λ decl, required decl.2 && omitted raw decl) schema.

(** *** ExecutionContext *)

(** Modelled from the spec: the per-invocation context (section 3 of the
    design document): validated arguments, named variable slots, and the
    ambient subscription id. *)
Record context : Type := Ctx {
  args : list (string * option string);
  vars : gmap string value;
  subscription_id : option string
}.

(** Modelled from the spec: [ctx.args.<name>] as a value (section 3): the
    null sentinel when the argument is unset. *)
Definition ctx_arg (ctx : context) (name : string) : value :=
  match assoc name (args ctx) with
  | Some (Some s) => VStr s
  | _ => VNull
  end.

(** Modelled from the spec: an ambient identifier of the context as a
    value (section 3). *)
Definition ambient (o : option string) : value :=
  match o with Some s => VStr s | None => VNull end.

(** Modelled from the spec: [ctx.set_var(name, data, schema_builder=...)]
    (section 4.3): the data is deserialized through the schema and the
    result stored in the variable [name]. *)
Definition set_var (ctx : context) (name : string) (data : value)
    (schema : type_schema) : result context :=
  v ← deserialize schema data ;
  mret (Ctx (args ctx) (<[name := v]> (vars ctx)) (subscription_id ctx)).

(** *** Request parameters *)

(** Modelled from the spec: the wire form of a scalar (section 4.1):
    booleans as [true] / [false], other scalars by their canonical string
    conversion; an unset value has none. *)
Definition wire_form (v : value) : option string :=
  match v with
  | VBool true => Some "true"
  | VBool false => Some "false"
  | VInt n => Some (pretty n)
  | VFloat literal => Some literal
  | VStr s => Some s
  | _ => None
  end.

(** Modelled from the spec: parameter serialization (section 4.1), the
    common body of [serialize_url_param], [serialize_query_param] and
    [serialize_header_param] of [AAZHttpOperation]: an unset optional
    parameter is omitted, an unset required one fails with
    [ParameterMissing]. *)
Definition serialize_param (name : string) (v : value) (required : bool)
  : result (list (string * string)) :=
  match wire_form v with
  | Some s => inr [(name, s)]
  | None => if required then inl (ParameterMissing name) else inr []
  end.

Definition serialize_url_param := serialize_param.
Definition serialize_query_param := serialize_param.
Definition serialize_header_param := serialize_param.

(** Modelled from the spec: URL building (section 4.3), [client.format_url]:
    every [{placeholder}] of the template is replaced by its parameter; a
    placeholder without a parameter is a [UrlBuildError].
    [hole] is the name of the placeholder being read, if any. *)
Fixpoint format_from (params : list (string * string)) (template : string)
    (hole : option string) : result string :=
  match template with
  | EmptyString =>
      match hole with
      | None => inr EmptyString
      | Some name => inl (UrlBuildError name)
      end
  | String c rest =>
      match hole with
      | None =>
          if Ascii.eqb c "{"
          then format_from params rest (Some EmptyString)
          else String c <$> format_from params rest None
      | Some name =>
          if Ascii.eqb c "}"
          then match assoc name params with
               | Some v => String.append v <$> format_from params rest None
               | None => inl (UrlBuildError name)
               end
          else format_from params rest (Some (name +:+ String c EmptyString))
      end
  end.

(** Modelled from the spec: [client.format_url(template, **params)]
    (section 4.3). *)
Definition format_url (template : string) (params : list (string * string))
  : result string :=
  format_from params template None.

(** *** Requests, responses, transport *)

(** Modelled from the spec: the transport boundary (section 6): a request
    carries method, URL, query and headers; a response carries a status
    code and a (decoded) body. *)
Record request : Type := Request {
  req_method : string;
  req_url : string;
  req_query : list (string * string);
  req_headers : list (string * string)
}.

Record response : Type := Response {
  status_code : Z;
  body : value
}.

(** Modelled from the spec: the injected transport (section 6),
    [send(request) -> response], or a [TransportError]. *)
Abbreviation transport := (request → result response).

(** [k1=v1&k2=v2...] *)
Fixpoint query_string (q : list (string * string)) : string :=
  match q with
  | [] => EmptyString
  | [(k, v)] => k +:+ "=" +:+ v
  | (k, v) :: rest => k +:+ "=" +:+ v +:+ "&" +:+ query_string rest
  end.

Definition str_field (k : string) (fields : list (string * value)) : option string :=
  match assoc k fields with
  | Some (VStr s) => Some s
  | _ => None
  end.

(** Modelled from the spec: the error-decoding path (section 4.3),
    [AAZHttpOperation.on_error] with the management-plane error format:
    the body [{error: {code, message}}] becomes a [RemoteApiError] carrying
    the code and the message. *)
Definition decode_error (error_format : string) (body : value) : error :=
  match body with
  | VObject fields =>
      match assoc "error" fields with
      | Some (VObject e) => RemoteApiError (str_field "code" e) (str_field "message" e)
      | _ => RemoteApiError None None
      end
  | _ => RemoteApiError None None
  end.

(** *** Schema objects and the class-level caches *)

(** The schema builders of a generated command create objects of the
    framework's classes ([AAZArgumentsSchema], [AAZBoolType], [AAZStrType],
    [AAZListType], [AAZObjectType], all declared in [azure.cli.core.aaz]),
    assign attributes on them and keep a reference in a class attribute.
    Objects live in a heap and are named by their address, so that being
    the same object has a meaning. *)
Inductive object : Type :=
| ArgumentsSchema (arguments : list (string * arg_spec))
| BoolType (serialized_name : option string)
| StrType (serialized_name : option string)
| ListType (serialized_name : option string) (Element : option nat)
| ObjectType (serialized_name : option string) (attributes : list (string * nat)).

Abbreviation heap := (list object).

(** A constructor call: the new object gets the next free address. *)
Definition alloc (o : object) (h : heap) : nat * heap := (length h, h ++ [o]).

(** An assignment on the object at address [r]; [None] when there is no
    such object or it does not take the assignment. *)
Definition update (r : nat) (f : object → option object) (h : heap) : option heap :=
  o ← h !! r ; o' ← f o ; Some (<[r := o']> h).

(** [schema.<name> = <arg>] on an arguments schema *)
Definition set_argument (name : string) (a : arg_spec) (o : object) : option object :=
  match o with
  | ArgumentsSchema arguments => Some (ArgumentsSchema (assoc_set name a arguments))
  | _ => None
  end.

(** [schema.<name> = <type object>] on an object type *)
Definition set_attribute (name : string) (r : nat) (o : object) : option object :=
  match o with
  | ObjectType sn attributes => Some (ObjectType sn (assoc_set name r attributes))
  | _ => None
  end.

(** [schema.<name>] on an object type *)
Definition get_attribute (name : string) (o : object) : option nat :=
  match o with
  | ObjectType _ attributes => assoc name attributes
  | _ => None
  end.

(** [list_type.Element = <type object>] *)
Definition set_Element (r : nat) (o : object) : option object :=
  match o with
  | ListType sn _ => Some (ListType sn (Some r))
  | _ => None
  end.

Definition serialized_name_of (o : object) : option string :=
  match o with
  | ArgumentsSchema _ => None
  | BoolType sn | StrType sn | ListType sn _ | ObjectType sn _ => sn
  end.

(** The arguments an arguments-schema object declares. *)
Definition arguments_of (h : heap) (r : nat) : option args_schema :=
  o ← h !! r ;
  match o with
  | ArgumentsSchema arguments => Some arguments
  | _ => None
  end.

(** The TypeSchema tree a type object stands for: the wire name of a field
    is the [serialized_name] of its type object, or else its logical name.
    The heap is a finite graph; [fuel] bounds the depth of the walk. *)
Fixpoint schema_of (fuel : nat) (h : heap) (r : nat) : option type_schema :=
  match fuel with
  | O => None
  | S fuel =>
      o ← h !! r ;
      match o with
      | ArgumentsSchema _ => None
      | BoolType _ => Some TBool
      | StrType _ => Some TStr
      | ListType _ Element => e ← Element ; TList <$> schema_of fuel h e
      | ObjectType _ attributes =>
          TObject <$>
            mapM (λ '(name, a),
                    oa ← h !! a ;
                    t ← schema_of fuel h a ;
                    Some (Field name (default name (serialized_name_of oa)) false t))
                 attributes
      end
  end.

(** *** Running a command *)

(** What an invocation does, in order. *)
Inductive event : Type :=
| PreOperations
| Send (r : request)
| On200
| OnError
| PostOperations
| Output.

(** The events of an operation: the request sent and the response path
    taken. *)
Definition is_operation_event (e : event) : bool :=
  match e with
  | Send _ | On200 | OnError => true
  | PreOperations | PostOperations | Output => false
  end.

(** How an invocation ends: with the formatted result, with the errors of
    the taxonomy, or with a Python exception outside of it. *)
Inductive outcome : Type :=
| Completed (v : value)
| Failed (errs : list error)
| Crashed (what : string).

(** A step of an invocation: the events so far and the error raised or
    the value produced. *)
Definition run (A : Type) : Type := list event * result A.

#[global] Instance run_ret : MRet run := λ A a, ([], inr a).
#[global] Instance run_bind : MBind run := λ A B f m,
  match m with
  | (tr, inl e) => (tr, inl e)
  | (tr, inr a) => let '(tr', r) := f a in (tr ++ tr', r)
  end.

Definition emit (e : event) : run unit := ([e], inr tt).
Definition lift {A} (r : result A) : run A := ([], r).

End AAZ.

(** ** [network/vnet/_check_ip_address.py] *)

Module CheckIpAddress.
Import AAZ.

Section Command.

(** [AAZResourceGroupNameArg] is declared in [azure.cli.core.aaz]; the
    settings the class brings along (option strings, help, default, id
    part, validator) are a parameter. The command passes
    [required=True]. *)
Variable resource_group_settings : arg_spec.

Definition AAZResourceGroupNameArg (required : bool) : arg_spec :=
  Arg (options resource_group_settings) (help resource_group_settings)
      required (default_value resource_group_settings)
      (id_part resource_group_settings) (validator resource_group_settings).

(** The class attributes [CheckIpAddress._args_schema] and
    [VirtualNetworksCheckIPAddressAvailability._schema_on_200], with the
    heap of the objects they may refer to. *)
Record classes : Type := Classes {
  objects : heap;
  _args_schema : option nat;
  _schema_on_200 : option nat
}.

(** Both attributes start as [None]. *)
Definition initial : classes := Classes [] None None.

(** [CheckIpAddress._build_arguments_schema] *)
Definition _build_arguments_schema (cls : classes) : option (nat * classes) :=
  match _args_schema cls with
  | Some r => Some (r, cls)
  | None =>
      (* cls._args_schema = super()._build_arguments_schema(...) *)
      let '(r, h) := alloc (ArgumentsSchema []) (objects cls) in
      let cls := Classes h (Some r) (_schema_on_200 cls) in
      (* _args_schema = cls._args_schema *)
      s ← _args_schema cls ;
      h ← update s (set_argument "resource_group" (AAZResourceGroupNameArg true))
             (objects cls) ;
      h ← update s (set_argument "name"
                      (AAZStrArg ["-n"; "--name"] "The virtual network (VNet) name."
                         true (Some "name"))) h ;
      h ← update s (set_argument "ip_address"
                      (AAZStrArg ["--ip-address"]
                         "The private IP address to be verified." false None)) h ;
      let cls := Classes h (_args_schema cls) (_schema_on_200 cls) in
      r' ← _args_schema cls ;
      Some (r', cls)
  end.

(** [VirtualNetworksCheckIPAddressAvailability._build_schema_on_200] *)
Definition _build_schema_on_200 (cls : classes) : option (nat * classes) :=
  match _schema_on_200 cls with
  | Some r => Some (r, cls)
  | None =>
      (* cls._schema_on_200 = AAZObjectType() *)
      let '(r, h) := alloc (ObjectType None []) (objects cls) in
      let cls := Classes h (_args_schema cls) (Some r) in
      (* _schema_on_200 = cls._schema_on_200 *)
      s ← _schema_on_200 cls ;
      (* _schema_on_200.available = AAZBoolType() *)
      let '(b, h) := alloc (BoolType None) (objects cls) in
      h ← update s (set_attribute "available" b) h ;
      (* _schema_on_200.available_ip_addresses = AAZListType(serialized_name=...) *)
      let '(l, h) := alloc (ListType (Some "availableIPAddresses") None) h in
      h ← update s (set_attribute "available_ip_addresses" l) h ;
      let cls := Classes h (_args_schema cls) (_schema_on_200 cls) in
      (* available_ip_addresses = cls._schema_on_200.available_ip_addresses *)
      s' ← _schema_on_200 cls ;
      o ← objects cls !! s' ;
      available_ip_addresses ← get_attribute "available_ip_addresses" o ;
      (* available_ip_addresses.Element = AAZStrType() *)
      let '(e, h) := alloc (StrType None) (objects cls) in
      h ← update available_ip_addresses (set_Element e) h ;
      let cls := Classes h (_args_schema cls) (_schema_on_200 cls) in
      r' ← _schema_on_200 cls ;
      Some (r', cls)
  end.

(** [n] calls of a schema builder in a row: the references they return
    and the class state they leave. *)
Fixpoint calls (builder : classes → option (nat * classes)) (n : nat)
    (cls : classes) : option (list nat * classes) :=
  match n with
  | O => Some ([], cls)
  | S n =>
      '(r, cls1) ← builder cls ;
      '(rs, cls2) ← calls builder n cls1 ;
      Some (r :: rs, cls2)
  end.

(** The argument schema of the command: what the first call of
    [_build_arguments_schema] in a process builds. *)
Definition arguments : args_schema :=
  default []
    ('(r, cls) ← _build_arguments_schema initial ; arguments_of (objects cls) r).

(** The response schema of the operation: what the first call of
    [_build_schema_on_200] builds. *)
Definition schema_on_200 : type_schema :=
  default TAny
    ('(r, cls) ← _build_schema_on_200 initial ; schema_of 3 (objects cls) r).

(** *** The operation [VirtualNetworksCheckIPAddressAvailability] *)

Definition URL_TEMPLATE : string :=
  "/subscriptions/{subscriptionId}/resourceGroups/{resourceGroupName}" +:+
  "/providers/Microsoft.Network/virtualNetworks/{virtualNetworkName}" +:+
  "/CheckIPAddressAvailability".

Definition method : string := "GET".
Definition error_format : string := "MgmtErrorFormat".

(** [{**p1, **p2, ...}] with parameters that may fail to serialize *)
Fixpoint parameters (l : list (result (list (string * string))))
  : result (list (string * string)) :=
  match l with
  | [] => inr []
  | p :: rest =>
      p' ← p ;
      rest' ← parameters rest ;
      mret (assoc_merge p' rest')
  end.

Definition url_parameters (ctx : context) : result (list (string * string)) :=
  parameters [
    serialize_url_param "resourceGroupName" (ctx_arg ctx "resource_group") true;
    serialize_url_param "subscriptionId" (ambient (subscription_id ctx)) true;
    serialize_url_param "virtualNetworkName" (ctx_arg ctx "name") true
  ].

Definition url (ctx : context) : result string :=
  ps ← url_parameters ctx ;
  format_url URL_TEMPLATE ps.

Definition query_parameters (ctx : context) : result (list (string * string)) :=
  parameters [
    serialize_query_param "ipAddress" (ctx_arg ctx "ip_address") false;
    serialize_query_param "api-version" (VStr "2017-10-01") true
  ].

Definition header_parameters (ctx : context) : result (list (string * string)) :=
  parameters [
    serialize_header_param "Accept" (VStr "application/json") false
  ].

(** Modelled from the spec: [AAZHttpOperation.make_request] (section 4.3
    of the design document, "build the request"): method, formatted URL,
    query and header parameters of the operation. *)
Definition make_request (ctx : context) : result request :=
  u ← url ctx ;
  q ← query_parameters ctx ;
  h ← header_parameters ctx ;
  mret (Request method u q h).

(** [on_200]: the decoded content goes to the variable [instance]. *)
Definition on_200 (ctx : context) (session : response) : result context :=
  let data := body session in
  set_var ctx "instance" data schema_on_200.

(** Modelled from the spec: [AAZHttpOperation.on_error] (section 4.3),
    with the [error_format] of the operation: the decoded
    [RemoteApiError] is raised. *)
Definition on_error (http_response : response) : result context :=
  inl (decode_error error_format (body http_response)).

(** [VirtualNetworksCheckIPAddressAvailability(ctx=self.ctx)()] *)
Definition VirtualNetworksCheckIPAddressAvailability
    (send_request : transport) (ctx : context) : run context :=
  request ← lift (make_request ctx) ;
  emit (Send request) ;;
  session ← lift (send_request request) ;
  if existsb (Z.eqb (status_code session)) [200%Z]
  then emit On200 ;; lift (on_200 ctx session)
  else emit OnError ;; lift (on_error session).

(** *** The command [CheckIpAddress] *)

(** The callbacks are empty. *)
Definition pre_operations : run unit := emit PreOperations.
Definition post_operations : run unit := emit PostOperations.

Definition _execute_operations (send_request : transport) (ctx : context)
  : run context :=
  pre_operations ;;
  ctx' ← VirtualNetworksCheckIPAddressAvailability send_request ctx ;
  post_operations ;;
  mret ctx'.

(** [self.deserialize_output(self.ctx.vars.instance, client_flatten=True)];
    [None] when the variable was never set. *)
Definition _output (ctx : context) : option value :=
  instance ← vars ctx !! "instance" ;
  Some (deserialize_output instance true).

(** [_handler]: [super()._handler(command_args)] validates the arguments
    into a fresh context (the state machine of section 4.4 of the design
    document), then the operations run, then the output step. *)
Definition _handler (send_request : transport) (subscription : option string)
    (command_args : list (string * string)) : list event * outcome :=
  match build arguments command_args with
  | inl errs => ([], Failed errs)
  | inr validated =>
      let ctx := Ctx validated ∅ subscription in
      match _execute_operations send_request ctx with
      | (tr, inl e) => (tr, Failed [e])
      | (tr, inr ctx') =>
          match _output ctx' with
          | Some v => (tr ++ [Output], Completed v)
          | None => (tr ++ [Output], Crashed "AttributeError")
          end
      end
  end.

End Command.

End CheckIpAddress.

(** ** [profile/custom.py]: the account commands

    [show_subscription], [get_access_token], [account_clear], [logout],
    [check_cli] and [_remove_adal_token_cache]. *)

Module ProfileAccount.
Import Py.

(** Exceptions that leave these commands. *)
Inductive exn : Type :=
| CLIError (msg : string)
| CLIErrorOf (exceptions : list (string * string))
| KeyError (key : pyval)
| TypeError (what : string)
| OSError (what : string)
| External (what : string).

(** What a command does to the outside world, in order. *)
Inductive event : Type :=
| Warning (msg : string)
| Error (msg : string)
| Print (msg : string)
| OsRemove (path : string)
| ProfileNew
| ProfileGetSubscription (subscription : pyval)
| ProfileGetRawToken (subscription resource scopes tenant : pyval)
| ProfileLogoutAll
| ProfileGetCurrentAccountUser
| ProfileLogout (username : pyval)
| GetEndpoint (attribute : string)
| LoadCommands
| GetAllHelp.

Definition is_profile_event (e : event) : bool :=
  match e with
  | ProfileNew | ProfileGetSubscription _ | ProfileGetRawToken _ _ _ _
  | ProfileLogoutAll | ProfileGetCurrentAccountUser | ProfileLogout _ => true
  | _ => false
  end.

(** The events so far and either the exception raised or the value
    produced. *)
Definition M (A : Type) : Type := list event * (exn + A).

#[global] Instance M_ret : MRet M := λ A a, ([], inr a).
#[global] Instance M_bind : MBind M := λ A B f m,
  match m with
  | (tr, inl e) => (tr, inl e)
  | (tr, inr a) => let '(tr', r) := f a in (tr ++ tr', r)
  end.

Definition raise {A} (e : exn) : M A := ([], inl e).
Definition emit (e : event) : M unit := ([e], inr tt).
Definition call {A} (e : event) (answer : exn + A) : M A := ([e], answer).
Definition when (b : bool) (m : M unit) : M unit := if b then m else mret tt.

(** What [os.remove] answers. *)
Inductive remove_answer : Type :=
| Removed
| FileNotFoundError
| OtherOSError (what : string).

(** The credentials [Profile.get_raw_token] hands out: token type, token,
    and a dictionary with the expiry. *)
Definition creds : Type := pyval * pyval * dict.

(** The collaborators of the account commands, each given by its
    answer. *)
Record env : Type := {
  get_config_dir : string;
  path_join : string → string → string;
  os_remove : string → remove_answer;
  in_cloud_console : bool;
  endpoints : string → exn + pyval;
  get_subscription : pyval → exn + pyval;
  get_raw_token : pyval → pyval → pyval → pyval → exn + (creds * pyval * pyval);
  logout_all : exn + unit;
  get_current_account_user : exn + pyval;
  profile_logout : pyval → exn + unit;
  create_invoker_and_load_cmds_and_args : exn + unit;
  get_all_help : exn + unit
}.

Definition cloud_resource_type_mappings : list (string * string) :=
  [("oss-rdbms", "ossrdbms_resource_id");
   ("arm", "active_directory_resource_id");
   ("aad-graph", "active_directory_graph_resource_id");
   ("ms-graph", "microsoft_graph_resource_id");
   ("batch", "batch_resource_id");
   ("media", "media_resource_id");
   ("data-lake", "active_directory_data_lake_resource_id")].

Definition _CLOUD_CONSOLE_LOGOUT_WARNING : string :=
  "Logout successful. Re-login to your initial Cloud Shell identity with" +:+
  " 'az login --identity'. Login with a new identity with 'az login'.".

(** *** [show_subscription] *)

Definition show_subscription (e : env) (subscription : pyval) : M pyval :=
  emit ProfileNew ;;
  call (ProfileGetSubscription subscription) (get_subscription e subscription).

(** *** [get_access_token] *)

(** [d[key]] on a dictionary with string keys and an arbitrary key
    object: a string is looked up, a list or dictionary is unhashable, any
    other object is no key of the dictionary. *)
Definition subscript (d : list (string * string)) (key : pyval) : exn + string :=
  match key with
  | PyStr s =>
      match List.find (λ kv, String.eqb kv.1 s) d with
      | Some kv => inr kv.2
      | None => inl (KeyError key)
      end
  | PyList _ | PyDict _ => inl (TypeError "unhashable type")
  | _ => inl (KeyError key)
  end.

(** [d[key]] on a dictionary object. *)
Definition item (d : dict) (key : string) : exn + pyval :=
  match d !! key with
  | Some v => inr v
  | None => inl (KeyError (PyStr key))
  end.

Definition is_none (v : pyval) : bool :=
  match v with PyNone => true | _ => false end.

Definition lift {A} (r : exn + A) : M A := ([], r).

Definition get_access_token (e : env)
    (subscription resource scopes resource_type tenant : pyval) : M dict :=
  resource ←
    (if is_none resource && truthy resource_type then
       endpoints_attr_name ← lift (subscript cloud_resource_type_mappings resource_type) ;
       call (GetEndpoint endpoints_attr_name) (endpoints e endpoints_attr_name)
     else mret resource) ;
  emit ProfileNew ;;
  '(creds, subscription, tenant) ←
    call (ProfileGetRawToken subscription resource scopes tenant)
         (get_raw_token e subscription resource scopes tenant) ;
  expires_on ← lift (item creds.2 "expires_on") ;
  expiresOn ← lift (item creds.2 "expiresOn") ;
  let result : dict :=
    <["tenant" := tenant]>
      (<["expiresOn" := expiresOn]>
         (<["expires_on" := expires_on]>
            (<["accessToken" := creds.1.2]>
               (<["tokenType" := creds.1.1]> ∅)))) in
  mret (if truthy subscription
        then <["subscription" := subscription]> result
        else result).

(** *** [_remove_adal_token_cache] *)

Definition _remove_adal_token_cache (e : env) : M bool :=
  let adal_token_cache := path_join e (get_config_dir e) "accessTokens.json" in
  emit (OsRemove adal_token_cache) ;;
  match os_remove e adal_token_cache with
  | Removed => mret true
  | FileNotFoundError => mret false
  | OtherOSError what => raise (OSError what)
  end.

(** *** [account_clear] *)

Definition account_clear (e : env) : M unit :=
  _remove_adal_token_cache e ;;
  when (in_cloud_console e) (emit (Warning _CLOUD_CONSOLE_LOGOUT_WARNING)) ;;
  emit ProfileNew ;;
  call ProfileLogoutAll (logout_all e).

(** *** [logout] *)

Definition logout (e : env) (username : pyval) : M unit :=
  _remove_adal_token_cache e ;;
  when (in_cloud_console e) (emit (Warning _CLOUD_CONSOLE_LOGOUT_WARNING)) ;;
  emit ProfileNew ;;
  username ←
    (if negb (truthy username)
     then call ProfileGetCurrentAccountUser (get_current_account_user e)
     else mret username) ;
  call (ProfileLogout username) (profile_logout e username).

(** *** [check_cli] *)

Definition nl : string := String (ascii_of_nat 10) EmptyString.

(** The text of an exception, as it is kept in [exceptions]. *)
Definition describe (x : exn) : string :=
  match x with
  | CLIError msg => msg
  | CLIErrorOf _ => "CLIError"
  | KeyError _ => "KeyError"
  | TypeError what => what
  | OSError what => what
  | External what => what
  end.

(** A [try] block around a loader: on an exception the handler records it
    in [exceptions], logs and raises it again. *)
Definition guarded (exceptions : list (string * string)) (ev : event)
    (answer : exn + unit) (ok : string) (key : string) (failed : string)
  : M (list (string * string)) :=
  emit ev ;;
  match answer with
  | inr _ => emit (Print ok) ;; mret exceptions
  | inl ex =>
      let exceptions := exceptions ++ [(key, describe ex)] in
      emit (Error failed) ;;
      raise ex
  end.

Definition check_cli (e : env) : M unit :=
  let exceptions : list (string * string) := [] in
  emit (Print ("Running CLI self-test." +:+ nl)) ;;
  emit (Print "Loading all commands and arguments...") ;;
  exceptions ←
    guarded exceptions LoadCommands (create_invoker_and_load_cmds_and_args e)
            ("Commands loaded OK." +:+ nl) "load_commands"
            ("Error occurred loading commands!" +:+ nl) ;
  emit (Print "Retrieving all help...") ;;
  exceptions ←
    guarded exceptions GetAllHelp (get_all_help e)
            ("Help loaded OK." +:+ nl) "load_help"
            ("Error occurred loading help!" +:+ nl) ;
  match exceptions with
  | [] => emit (Print "CLI self-test completed: OK")
  | _ => raise (CLIErrorOf exceptions)
  end.

End ProfileAccount.

(** ** Reading a trace of [login] *)

Module LoginTrace.
Import Py ProfileCustom.

(** The [interactive] and [show_progress] flags of the calls of
    [profile.login] in a trace. *)
Definition login_flags (tr : list event) : list (bool * bool) :=
  omap (λ e, match e with
             | ProfileLogin interactive _ _ _ _ _ _ _ _ show_progress =>
                 Some (interactive, show_progress)
             | _ => None
             end) tr.


Definition is_prompt (e : event) : bool :=
  match e with PromptPass _ => true | _ => false end.

Definition is_profile_login (e : event) : bool :=
  match e with ProfileLogin _ _ _ _ _ _ _ _ _ _ => true | _ => false end.

End LoginTrace.

(** ** Reading a trace and a result of [CheckIpAddress] *)

Module CommandTrace.
Import AAZ.

(** The requests handed to the transport in a trace. *)
Definition sends (tr : list event) : list request :=
  omap (λ e, match e with Send r => Some r | _ => None end) tr.





End CommandTrace.

(** ** Concrete inputs

    Small inputs on which the definitions above are run. *)

Module Samples.
Import Py.

(** Two subscription objects, the first one listed twice. *)
Definition loaded_store : store :=
  {[ 0 := {[ "environmentName" := PyStr "AzureCloud"; "state" := PyStr "Enabled" ]} : dict ;
     1 := {[ "state" := PyStr "Disabled" ]} : dict ]}.

Definition load_subscriptions (all_clouds refresh : bool) : store * list loc :=
  (loaded_store, [0; 1; 0]).

(** Three subscription objects, each listed once; the first two carry an
    [environmentName], the last one does not. *)
Definition listed_once_store : store :=
  {[ 0 := {[ "environmentName" := PyStr "AzureCloud"; "state" := PyStr "Enabled" ]} : dict ;
     1 := {[ "environmentName" := PyStr "AzureChinaCloud";
             "state" := PyStr "Disabled" ]} : dict ;
     2 := {[ "state" := PyStr "Enabled" ]} : dict ]}.

Definition load_listed_once (all_clouds refresh : bool) : store * list loc :=
  (listed_once_store, [0; 1; 2]).

(** [az login --identity -p secret] *)
Definition identity_with_password : ProfileCustom.login_args :=
  ProfileCustom.Build_login_args
    PyNone (PyStr "secret") PyNone PyNone (PyBool false)
    (PyBool true) (PyBool false) PyNone PyNone PyNone.

(** [az login --identity -p ''] : the password is given, and empty. *)
Definition identity_with_empty_password : ProfileCustom.login_args :=
  ProfileCustom.Build_login_args
    PyNone (PyStr EmptyString) PyNone PyNone (PyBool false)
    (PyBool true) (PyBool false) PyNone PyNone PyNone.

(** Collaborators that answer with nothing of interest. *)
Definition quiet_env : ProfileCustom.login_env :=
  ProfileCustom.Build_login_env
    false None false false true
    (inr PyNone) (λ _ _, inr PyNone) (λ _ _ _, inr PyNone)
    (λ _ _ _ _, inr (∅, [])) (λ _, inr PyNone) (λ _, inr tt).

(** A plausible [AAZResourceGroupNameArg]. *)
Definition resource_group_settings : AAZ.arg_spec :=
  AAZ.Arg ["--resource-group"; "-g"] "Name of resource group." false None
          (Some "resource_group") (λ _, true).

(** The argument set of the end-to-end scenario. *)
Definition scenario_args : list (string * string) :=
  [("resource_group", "rg1"); ("name", "vnet1"); ("ip_address", "10.0.0.4")].

Definition scenario_validated : list (string * option string) :=
  [("resource_group", Some "rg1"); ("name", Some "vnet1");
   ("ip_address", Some "10.0.0.4")].

Definition scenario_body : AAZ.value :=
  AAZ.VObject [("available", AAZ.VBool true);
               ("availableIPAddresses", AAZ.VList [])].

Definition not_found_body : AAZ.value :=
  AAZ.VObject [("error", AAZ.VObject [("code", AAZ.VStr "NotFound");
                                     ("message", AAZ.VStr "x")])].

(** Fake transports: one answers 200 with the scenario's body, one 404
    with an error body, one fails before any response. *)
Definition send_ok : AAZ.transport :=
  λ _, inr (AAZ.Response 200 scenario_body).
Definition send_not_found : AAZ.transport :=
  λ _, inr (AAZ.Response 404 not_found_body).
Definition send_timeout : AAZ.transport :=
  λ _, inl (AAZ.TransportError "timeout").

Definition scenario_ctx : AAZ.context :=
  AAZ.Ctx scenario_validated ∅ (Some "sub1").

(** [az login -u user] on a machine without terminal: no password is
    given and none can be asked for. *)
Definition username_only : ProfileCustom.login_args :=
  ProfileCustom.Build_login_args
    (PyStr "user") PyNone PyNone PyNone (PyBool false)
    (PyBool false) (PyBool false) PyNone PyNone PyNone.

(** [az login --identity] *)
Definition identity_only : ProfileCustom.login_args :=
  ProfileCustom.Build_login_args
    PyNone PyNone PyNone PyNone (PyBool false)
    (PyBool true) (PyBool false) PyNone PyNone PyNone.

(** [az login --service-principal -u app -p secret --tenant t] *)
Definition service_principal_login : ProfileCustom.login_args :=
  ProfileCustom.Build_login_args
    (PyStr "app") (PyStr "secret") (PyBool true) (PyStr "t") (PyBool false)
    (PyBool false) (PyBool false) PyNone PyNone PyNone.

(** Collaborators at a terminal: [profile.login] answers with the loaded
    store, the selector with a subscription id. *)
Definition terminal_env : ProfileCustom.login_env :=
  ProfileCustom.Build_login_env
    false None true true true
    (inr PyNone) (λ _ _, inr PyNone) (λ _ _ _, inr (PyStr "credential"))
    (λ _ _ _ _, inr (loaded_store, [0; 1; 0])) (λ _, inr (PyStr "sub1"))
    (λ _, inr tt).

(** Collaborators of the account commands: every endpoint is the
    management endpoint, the token expires at 1700000000, the ADAL cache
    file does not exist. *)
Definition account_env : ProfileAccount.env :=
  ProfileAccount.Build_env
    "/home/user/.azure" (λ d f, d +:+ "/" +:+ f) (λ _, ProfileAccount.FileNotFoundError)
    false
    (λ _, inr (PyStr "https://management.azure.com/"))
    (λ s, inr s)
    (λ subscription resource scopes tenant,
       inr ((PyStr "Bearer", PyStr "token",
             {[ "expires_on" := PyInt 1700000000;
                "expiresOn" := PyStr "2023-11-14 22:13:20.000000" ]} : dict),
            PyStr "sub1", PyStr "tenant1"))
    (inr tt) (inr (PyStr "user@example.com")) (λ _, inr tt)
    (inr tt) (inr tt).

(** The same, with an ADAL cache file that cannot be removed. *)
Definition locked_env : ProfileAccount.env :=
  ProfileAccount.Build_env
    "/home/user/.azure" (λ d f, d +:+ "/" +:+ f)
    (λ _, ProfileAccount.OtherOSError "PermissionError")
    false
    (λ _, inr (PyStr "https://management.azure.com/"))
    (λ s, inr s)
    (λ subscription resource scopes tenant,
       inl (ProfileAccount.CLIError "Please run 'az login' to setup account."))
    (inr tt) (inr (PyStr "user@example.com")) (λ _, inr tt)
    (inl (ProfileAccount.External "ImportError")) (inr tt).


End Samples.

(** * Properties *)

(** ** [profile/custom.py] *)

Section ProfileCustomFacts.
Import Py ProfileCustom.

Lemma eq_str_true v s : eq_str v s = true ↔ v = PyStr s.
Proof.
  destruct v; simpl; split; try discriminate.
  - intros H. apply String.eqb_eq in H. by subst.
  - intros [= ->]. apply String.eqb_refl.
Qed.

(** One pass of the renaming on a dictionary. *)
Lemma rename_environment_renamed d : renamed d (rename_environment d).
Proof.
  unfold renamed, rename_environment, dict_pop, dict_get. simpl.
  split; [left; by rewrite lookup_insert_eq|].
  split.
  - rewrite lookup_insert_ne; [|done]. apply lookup_delete_eq.
  - intros k Hc He. rewrite lookup_insert_ne; [|done].
    by rewrite lookup_delete_ne.
Qed.

(** A second pass on the same object finds no [environmentName] any more
    and stores [None]. *)
Lemma rename_environment_again d0 d :
  renamed d0 d → renamed d0 (rename_environment d).
Proof.
  intros (_ & He & Hk).
  unfold renamed, rename_environment, dict_pop. simpl.
  split; [right; rewrite lookup_insert_eq; by rewrite He|].
  split.
  - rewrite lookup_insert_ne; [|done]. apply lookup_delete_eq.
  - intros k Hc Hne. rewrite lookup_insert_ne; [|done].
    rewrite lookup_delete_ne; [|done]. by apply Hk.
Qed.

Lemma rename_all_keeps subs : ∀ (h : store) s d0 d,
  h !! s = Some d → renamed d0 d →
  ∃ d', rename_all subs h !! s = Some d' ∧ renamed d0 d'.
Proof.
  induction subs as [|a subs IH]; intros h s d0 d Hs Hr; simpl.
  - eauto.
  - destruct (decide (a = s)) as [->|Hne].
    + apply (IH _ s d0 (rename_environment d)).
      * rewrite lookup_alter_eq, Hs. done.
      * by apply rename_environment_again.
    + apply (IH _ s d0 d); [|done].
      by rewrite lookup_alter_ne.
Qed.

Lemma rename_all_renamed subs : ∀ (h : store) s d0,
  s ∈ subs → h !! s = Some d0 →
  ∃ d, rename_all subs h !! s = Some d ∧ renamed d0 d.
Proof.
  induction subs as [|a subs IH]; intros h s d0 Hin Hs; simpl.
  - by apply elem_of_nil in Hin.
  - destruct (decide (a = s)) as [->|Hne].
    + apply (rename_all_keeps subs _ s d0 (rename_environment d0)).
      * rewrite lookup_alter_eq, Hs. done.
      * apply rename_environment_renamed.
    + apply elem_of_cons in Hin as [->|Hin]; [done|].
      apply IH; [done|]. by rewrite lookup_alter_ne.
Qed.

Lemma filter_length_le {A} (f : A → bool) l :
  length (List.filter f l) ≤ length l.
Proof. induction l as [|x l IH]; simpl; [lia|]. destruct (f x); simpl; lia. Qed.

Lemma filter_all_kept {A} (f : A → bool) l :
  length (List.filter f l) = length l → List.filter f l = l.
Proof.
  induction l as [|x l IH]; simpl; [done|].
  destruct (f x); simpl; intros H.
  - f_equal. apply IH. lia.
  - pose proof (filter_length_le f l). lia.
Qed.

(** What [list_subscriptions] returns: the loaded list, or its enabled
    entries when [all] is false; the warnings aside. *)
Lemma list_subscriptions_returns load all refresh :
  let h := rename_all (load all refresh).2 (load all refresh).1 in
  (list_subscriptions load all refresh).1.2 = h ∧
  (list_subscriptions load all refresh).2 =
    if all then (load all refresh).2
    else List.filter (is_enabled h) (load all refresh).2.
Proof.
  unfold list_subscriptions.
  destruct (load all refresh) as [h0 subs]; simpl.
  destruct all; simpl; [done|].
  destruct (length (List.filter _ subs) =? length subs) eqn:E; simpl; [|done].
  apply Nat.eqb_eq in E. split; [done|]. symmetry. by apply filter_all_kept.
Qed.

(** The renaming loop runs once on an object for each time it is
    listed. *)
Lemma rename_all_lookup subs : ∀ (h : store) s,
  rename_all subs h !! s
  = Nat.iter (occurrences s subs) rename_environment <$> h !! s.
Proof.
  unfold occurrences.
  induction subs as [|a subs IH]; intros h s; simpl.
  - by destruct (h !! s).
  - rewrite IH. destruct (Nat.eqb_spec s a) as [->|Hne]; simpl.
    + rewrite lookup_alter_eq. destruct (h !! a) as [d|]; simpl; [|done].
      f_equal. symmetry. exact (Nat.iter_succ_r _ _ rename_environment d).
    + by rewrite lookup_alter_ne.
Qed.

Lemma occurrences_listed s subs : s ∈ subs → occurrences s subs ≠ 0.
Proof.
  unfold occurrences. induction subs as [|a subs IH]; intros Hin.
  - by apply elem_of_nil in Hin.
  - simpl. destruct (Nat.eqb_spec s a) as [->|Hne]; simpl; [done|].
    apply elem_of_cons in Hin as [?|Hin]; [done|]. by apply IH.
Qed.

(** What one pass and what further passes leave of a dictionary: the
    first pass carries the value of [environmentName] over to [cloudName],
    every later pass finds no [environmentName] and stores [None]. *)
Lemma rename_passes n (d0 : dict) :
  let d := Nat.iter (S n) rename_environment d0 in
  d !! "cloudName"
  = Some (match n with O => dict_get "environmentName" d0 | S _ => PyNone end) ∧
  d !! "environmentName" = None ∧
  ∀ k, k ≠ "cloudName" → k ≠ "environmentName" → d !! k = d0 !! k.
Proof.
  induction n as [|n IH].
  - simpl. unfold rename_environment, dict_pop, dict_get. simpl.
    split; [by rewrite lookup_insert_eq|]. split.
    + rewrite lookup_insert_ne by done. apply lookup_delete_eq.
    + intros k Hc He. rewrite lookup_insert_ne by done.
      by rewrite lookup_delete_ne.
  - destruct IH as (_ & He & Hk).
    change (Nat.iter (S (S n)) rename_environment d0)
      with (rename_environment (Nat.iter (S n) rename_environment d0)).
    set (d1 := Nat.iter (S n) rename_environment d0) in *.
    unfold rename_environment, dict_pop. simpl.
    split; [by rewrite lookup_insert_eq, He|]. split.
    + rewrite lookup_insert_ne by done. apply lookup_delete_eq.
    + intros k Hc Hne. rewrite lookup_insert_ne by done.
      rewrite lookup_delete_ne by done. by apply Hk.
Qed.

(** C10: every subscription dictionary that [list_subscriptions] returns
    has a [cloudName] key and no [environmentName] key. [cloudName] holds
    the value removed from [environmentName] ([None] when the dictionary
    had no such key); only for a dictionary that is listed more than once
    is it [None] whatever [environmentName] was, because the later pass
    finds the key removed. With [all=False] every returned entry has state
    [Enabled], the others being filtered out. *)
Theorem list_subscriptions_entries load all refresh :
  well_formed (load all refresh) →
  ∀ s, s ∈ (list_subscriptions load all refresh).2 →
    ∃ d0 d,
      (load all refresh).1 !! s = Some d0 ∧
      (list_subscriptions load all refresh).1.2 !! s = Some d ∧
      d !! "cloudName"
      = Some (match occurrences s (load all refresh).2 with
              | 1 => dict_get "environmentName" d0
              | _ => PyNone
              end) ∧
      d !! "environmentName" = None ∧
      (all = false → dict_get "state" d = PyStr "Enabled").
Proof.
  intros Hwf s Hs.
  destruct (list_subscriptions_returns load all refresh) as [Hh Hret].
  simpl in Hh. rewrite Hh. rewrite Hret in Hs. clear Hret Hh.
  unfold well_formed in Hwf.
  assert (Hin : s ∈ (load all refresh).2).
  { destruct all; [done|].
    apply list_elem_of_In, filter_In in Hs as [Hs _]. by apply list_elem_of_In. }
  pose proof (proj1 (Forall_forall _ _) Hwf s Hin) as [d0 Hd0].
  pose proof (occurrences_listed s _ Hin) as Hocc.
  pose proof (rename_all_lookup (load all refresh).2 (load all refresh).1 s) as Hd.
  rewrite Hd0 in Hd. simpl in Hd.
  destruct (occurrences s (load all refresh).2) as [|n] eqn:En; [done|].
  destruct (rename_passes n d0) as (Hc & He & Hk).
  exists d0, (Nat.iter (S n) rename_environment d0).
  split; [done|]. split; [done|]. split.
  { rewrite Hc. by destruct n. }
  split; [done|].
  intros ->. apply list_elem_of_In, filter_In in Hs as [_ Hen].
  unfold is_enabled in Hen. rewrite Hd in Hen.
  by apply eq_str_true in Hen.
Qed.

(** C8: whatever the subscription argument is ([None] and the empty string
    included), [set_active_subscription] calls
    [profile.set_active_subscription(subscription)]: the guard tests the
    builtin [id], which is true, so its [CLIError] branch is never taken
    and no input is rejected. *)
Theorem set_active_subscription_never_rejects
    (profile_set_active_subscription : pyval → exn + unit) (subscription : pyval) :
  truthy id_in_scope = true ∧
  set_active_subscription profile_set_active_subscription subscription =
    ([ProfileNew; ProfileSetActiveSubscription subscription],
     profile_set_active_subscription subscription).
Proof. split; reflexivity. Qed.

(** The argument check alone raises on each inconsistent combination. *)
Lemma usage_check_raises a :
  inconsistent a →
  ∃ msg, usage_check a = ([], inl (CLIError msg)) ∧ is_usage_error msg.
Proof.
  unfold inconsistent, is_set, usage_check, when, py_any. simpl.
  intros H.
  destruct (truthy (password a)), (truthy (service_principal a)),
    (truthy (tenant a)), (truthy (identity a)), (truthy (username a)),
    (truthy (use_device_code a)), (truthy (use_cert_sn_issuer a)); simpl;
    try (eexists; split; reflexivity);
    exfalso; intuition congruence.
Qed.

(** C9: [login] raises a usage-error [CLIError] before any profile
    interaction (no event at all) whenever the argument combination is
    inconsistent: identity with password, service principal or tenant;
    device code with password, service principal, username or identity;
    certificate issuer without service principal; service principal
    without username. *)
Theorem login_usage_error env a :
  inconsistent a →
  ∃ msg, login env a = ([], inl (CLIError msg)) ∧ is_usage_error msg.
Proof.
  intros H. destruct (usage_check_raises a H) as (msg & Hc & Hm).
  exists msg. split; [|done].
  unfold login. by rewrite Hc.
Qed.

Lemma login_usage_error_witness :
  ∃ msg, login Samples.quiet_env Samples.identity_with_password
           = ([], inl (CLIError msg)) ∧ is_usage_error msg.
Proof.
  apply (login_usage_error Samples.quiet_env Samples.identity_with_password).
  left. split; [reflexivity | left; reflexivity].
Defined.

(** The guards test truth values: an empty password does not count as
    set, and [login] goes on to the managed identity. *)
Example login_empty_password :
  ¬ inconsistent Samples.identity_with_empty_password ∧
  login Samples.quiet_env Samples.identity_with_empty_password
  = ([ProfileNew; ProfileLoginWithManagedIdentity PyNone (PyBool false)],
     inr (LoginValue PyNone)).
Proof.
  split; [|reflexivity].
  unfold inconsistent, is_set. simpl. intuition congruence.
Qed.

Lemma list_subscriptions_entries_witness :
  ∃ d0 d,
    (Samples.load_listed_once false false).1 !! 0 = Some d0 ∧
    (list_subscriptions Samples.load_listed_once false false).1.2 !! 0 = Some d ∧
    d !! "cloudName"
    = Some (match occurrences 0 (Samples.load_listed_once false false).2 with
            | 1 => dict_get "environmentName" d0
            | _ => PyNone
            end) ∧
    d !! "environmentName" = None ∧
    (false = false → dict_get "state" d = PyStr "Enabled").
Proof.
  apply (list_subscriptions_entries Samples.load_listed_once false false).
  - repeat constructor; vm_compute; eauto.
  - vm_compute. left.
Defined.

(** On the sample stores: an object listed once gets the value of its
    [environmentName], an object listed twice gets [None]. *)
Example list_subscriptions_carries_over :
  (list_subscriptions Samples.load_listed_once true false).1.2 !! 0
  = Some ({[ "cloudName" := PyStr "AzureCloud"; "state" := PyStr "Enabled" ]} : dict) ∧
  (list_subscriptions Samples.load_listed_once true false).1.2 !! 1
  = Some ({[ "cloudName" := PyStr "AzureChinaCloud";
             "state" := PyStr "Disabled" ]} : dict) ∧
  (list_subscriptions Samples.load_listed_once true false).1.2 !! 2
  = Some ({[ "cloudName" := PyNone; "state" := PyStr "Enabled" ]} : dict) ∧
  (list_subscriptions Samples.load_subscriptions true false).1.2 !! 0
  = Some ({[ "cloudName" := PyNone; "state" := PyStr "Enabled" ]} : dict).
Proof. repeat split; by vm_compute. Qed.

End ProfileCustomFacts.

(** ** The framework *)

Section FrameworkFacts.
Import AAZ.

(** Induction on a TypeSchema tree, with the hypothesis available for
    every declared field of an object node. *)
Lemma type_schema_induction (P : type_schema → Prop)
    (HBool : P TBool) (HStr : P TStr) (HInt : P TInt) (HFloat : P TFloat)
    (HAny : P TAny)
    (HList : ∀ e, P e → P (TList e))
    (HObject : ∀ fs, Forall (λ f, P (f_schema f)) fs → P (TObject fs)) :
  ∀ t, P t.
Proof.
  fix IH 1. intros [| | | | |e|fs]; try assumption.
  - apply HList, IH.
  - apply HObject. induction fs as [|f fs IHfs]; constructor.
    + apply IH.
    + apply IHfs.
Qed.

(** [mapM] in the error monad, one element at a time. *)
Lemma mapM_result_cons {A B} (f : A → result B) x l :
  mapM f (x :: l) = (y ← f x ; k ← mapM f l ; mret (y :: k)).
Proof. reflexivity. Qed.

Lemma mapM_result_error {A B} (f : A → result B) (P : error → Prop) l :
  Forall (λ x, ∀ e, f x = inl e → P e) l →
  ∀ e, mapM f l = inl e → P e.
Proof.
  induction 1 as [|x l Hx _ IH]; intros e; [discriminate|].
  rewrite mapM_result_cons.
  destruct (f x) as [e0|y] eqn:E; simpl.
  - intros [= <-]. by apply Hx.
  - destruct (mapM f l) as [e1|k]; simpl; [|discriminate].
    intros [= <-]. by apply IH.
Qed.

(** The walk at an object node and at a list node. *)
Lemma deserialize_object fs wire :
  deserialize (TObject fs) (VObject wire)
  = VObject <$> mapM (λ f,
                        x ← match assoc (f_wire f) wire with
                            | Some w => deserialize (f_schema f) w
                            | None => inr VNull
                            end ;
                        mret (f_name f, x)) fs.
Proof. reflexivity. Qed.

Lemma deserialize_list elt l :
  deserialize (TList elt) (VList l) = VList <$> mapM (deserialize elt) l.
Proof. reflexivity. Qed.

(** The only error deserialization raises is [DeserializationError]. *)
Lemma deserialize_error t : ∀ v e,
  deserialize t v = inl e → e = DeserializationError.
Proof.
  induction t as [| | | | |elt IH|fs IH] using type_schema_induction;
    intros v e; destruct v; simpl; try congruence.
  - destruct (mapM (deserialize elt) l) as [e1|r] eqn:E; simpl; [|discriminate].
    intros [= <-].
    eapply (mapM_result_error _ (λ e, e = DeserializationError) l); [|exact E].
    apply Forall_forall. intros x _ e'. apply IH.
  - match goal with |- context [mapM ?f fs] =>
      destruct (mapM f fs) as [e1|r] eqn:E end; simpl; [|discriminate].
    intros [= <-].
    eapply (mapM_result_error _ (λ e, e = DeserializationError) fs); [|exact E].
    eapply Forall_impl; [exact IH|]. intros f Hf e'. simpl.
    destruct (assoc (f_wire f) fields) as [w|]; simpl; [|discriminate].
    destruct (deserialize (f_schema f) w) as [e0|x] eqn:E0; simpl; [|discriminate].
    intros [= <-]. by apply (Hf w).
Qed.

(** The [MissingRequiredArgument] errors of a validation are exactly the
    required arguments that were omitted, one error each. *)
Lemma validation_errors_missing schema raw :
  List.filter is_missing (validation_errors schema raw)
  = MissingRequiredArgument <$> missing_required schema raw.
Proof.
  unfold validation_errors, missing_required.
  rewrite List.filter_app.
  assert (Hk : List.filter is_missing (flat_map (check_key schema) raw) = []).
  { induction raw as [|kv raw IH]; simpl; [done|].
    rewrite List.filter_app, IH, app_nil_r.
    unfold check_key. by destruct (existsb _ schema). }
  rewrite Hk, app_nil_r. clear Hk.
  induction schema as [|decl schema IH]; simpl; [done|].
  rewrite List.filter_app, IH. clear IH.
  unfold check_arg, omitted.
  destruct (supplied raw decl) as [v|]; simpl.
  - rewrite andb_false_r. by destruct (validator decl.2 v).
  - rewrite andb_true_r. destruct (required decl.2); simpl; [done|].
    destruct (default_value decl.2) as [v|]; [|done].
    by destruct (validator decl.2 v).
Qed.

(** With a required argument omitted, [build] fails with the collected
    errors. *)
Lemma build_missing schema raw :
  missing_required schema raw ≠ [] →
  build schema raw = inl (validation_errors schema raw).
Proof.
  intros H. unfold build.
  pose proof (validation_errors_missing schema raw) as Hm.
  destruct (validation_errors schema raw); [|done].
  simpl in Hm. by destruct (missing_required schema raw).
Qed.

End FrameworkFacts.

(** ** [network vnet check-ip-address] *)

Section CheckIpAddressFacts.
Import AAZ CheckIpAddress.

#[local] Arguments schema_on_200 : simpl never.
#[local] Arguments deserialize : simpl never.

(** The schemas the builders construct on first use. *)
Lemma arguments_built rg :
  arguments rg =
    [("resource_group", AAZResourceGroupNameArg rg true);
     ("name", AAZStrArg ["-n"; "--name"] "The virtual network (VNet) name."
                true (Some "name"));
     ("ip_address", AAZStrArg ["--ip-address"]
                      "The private IP address to be verified." false None)].
Proof. reflexivity. Qed.

Lemma schema_on_200_built :
  schema_on_200 =
    TObject [Field "available" "available" false TBool;
             Field "available_ip_addresses" "availableIPAddresses" false
                   (TList TStr)].
Proof. reflexivity. Qed.

(** The scenario's argument set validates, whatever option strings the
    resource group argument brings along. *)
Lemma scenario_validates rg :
  validator rg "rg1" = true →
  build (arguments rg) Samples.scenario_args = inr Samples.scenario_validated.
Proof.
  intros Hv. rewrite arguments_built.
  unfold build, validation_errors, Samples.scenario_args. simpl.
  unfold check_arg, check_key, arg_value, supplied. simpl.
  rewrite Hv, !orb_true_r. reflexivity.
Qed.

(** A list of strings deserializes to itself. *)
Lemma deserialize_strings ips :
  mapM (deserialize TStr) (VStr <$> ips) = inr (VStr <$> ips).
Proof.
  induction ips as [|s ips IH]; [done|].
  rewrite fmap_cons, mapM_result_cons, IH. reflexivity.
Qed.

(** Lookup does not see a key other than the one asked for. *)
Lemma assoc_skip {A} k k' (a : A) pre post :
  k ≠ k' → assoc k (pre ++ (k', a) :: post) = assoc k (pre ++ post).
Proof.
  intros Hne. induction pre as [|[k0 a0] pre IH]; simpl.
  - destruct (String.eqb_spec k k'); [done|reflexivity].
  - by rewrite IH.
Qed.

(** C1: the argument set [{resource_group: rg1, name: vnet1, ip_address:
    10.0.0.4}] validates and yields a GET request whose path is the URL
    template with [virtualNetworkName], [resourceGroupName] and
    [subscriptionId] substituted and whose query string is
    [ipAddress=10.0.0.4&api-version=2017-10-01]; the 200 body
    [{available: true, availableIPAddresses: []}] deserializes through the
    response schema to [{available: true, available_ip_addresses: []}]. *)
Theorem check_ip_address_scenario rg (subscription : string) :
  validator rg "rg1" = true →
  ∃ validated request,
    build (arguments rg) Samples.scenario_args = inr validated ∧
    make_request (Ctx validated ∅ (Some subscription)) = inr request ∧
    req_method request = "GET" ∧
    req_url request =
      "/subscriptions/" +:+ subscription +:+
      "/resourceGroups/rg1/providers/Microsoft.Network/virtualNetworks/vnet1" +:+
      "/CheckIPAddressAvailability" ∧
    req_query request = [("ipAddress", "10.0.0.4"); ("api-version", "2017-10-01")] ∧
    query_string (req_query request) = "ipAddress=10.0.0.4&api-version=2017-10-01" ∧
    deserialize schema_on_200
      (VObject [("available", VBool true); ("availableIPAddresses", VList [])])
    = inr (VObject [("available", VBool true); ("available_ip_addresses", VList [])]).
Proof.
  intros Hv. eexists _, _.
  split; [by apply scenario_validates|].
  split; [reflexivity|].
  repeat split.
Qed.

Lemma check_ip_address_scenario_witness :
  ∃ validated request,
    build (arguments Samples.resource_group_settings) Samples.scenario_args
      = inr validated ∧
    make_request (Ctx validated ∅ (Some "sub1")) = inr request ∧
    req_method request = "GET" ∧
    req_url request =
      "/subscriptions/" +:+ "sub1" +:+
      "/resourceGroups/rg1/providers/Microsoft.Network/virtualNetworks/vnet1" +:+
      "/CheckIPAddressAvailability" ∧
    req_query request = [("ipAddress", "10.0.0.4"); ("api-version", "2017-10-01")] ∧
    query_string (req_query request) = "ipAddress=10.0.0.4&api-version=2017-10-01" ∧
    deserialize schema_on_200
      (VObject [("available", VBool true); ("availableIPAddresses", VList [])])
    = inr (VObject [("available", VBool true); ("available_ip_addresses", VList [])]).
Proof.
  apply (check_ip_address_scenario Samples.resource_group_settings "sub1").
  reflexivity.
Defined.

(** A body with the declared fields deserializes to them alone. *)
Lemma deserialize_declared (wire : list (string * value)) (b : bool)
    (ips : list string) :
  assoc "available" wire = Some (VBool b) →
  assoc "availableIPAddresses" wire = Some (VList (VStr <$> ips)) →
  deserialize schema_on_200 (VObject wire)
  = inr (VObject [("available", VBool b);
                  ("available_ip_addresses", VList (VStr <$> ips))]).
Proof.
  rewrite schema_on_200_built. intros Ha Hi.
  rewrite deserialize_object, !mapM_result_cons.
  cbn [f_wire f_schema f_name]. rewrite Ha, Hi.
  rewrite deserialize_list, deserialize_strings. reflexivity.
Qed.

(** An undeclared wire field never changes what a body deserializes to. *)
Lemma deserialize_skips_undeclared (pre post : list (string * value))
    (k : string) (extra : value) :
  k ≠ "available" → k ≠ "availableIPAddresses" →
  deserialize schema_on_200 (VObject (pre ++ (k, extra) :: post))
  = deserialize schema_on_200 (VObject (pre ++ post)).
Proof.
  rewrite schema_on_200_built. intros Ha Hi.
  rewrite !deserialize_object, !mapM_result_cons.
  cbn [f_wire f_schema f_name].
  rewrite !(assoc_skip _ k); done.
Qed.

(** C7: a 200 body that carries the declared fields ([available] and
    [availableIPAddresses]) and, anywhere in it, a field the response
    schema does not declare, deserializes without error; the result is the
    one of the body without that field and holds the declared fields
    only. *)
Theorem undeclared_fields_ignored (pre post : list (string * value))
    (k : string) (extra : value) (b : bool) (ips : list string) :
  k ≠ "available" → k ≠ "availableIPAddresses" →
  assoc "available" (pre ++ post) = Some (VBool b) →
  assoc "availableIPAddresses" (pre ++ post) = Some (VList (VStr <$> ips)) →
  deserialize schema_on_200 (VObject (pre ++ (k, extra) :: post))
  = inr (VObject [("available", VBool b);
                  ("available_ip_addresses", VList (VStr <$> ips))])
  ∧ deserialize schema_on_200 (VObject (pre ++ (k, extra) :: post))
    = deserialize schema_on_200 (VObject (pre ++ post)).
Proof.
  intros Hk1 Hk2 Ha Hi.
  rewrite deserialize_skips_undeclared by done.
  split; [by apply deserialize_declared|done].
Qed.

Lemma undeclared_fields_ignored_witness :
  deserialize schema_on_200
    (VObject ([("available", VBool false)] ++
              ("extra", VObject [("nested", VInt 1)]) ::
              [("availableIPAddresses", VList (VStr <$> ["10.0.0.5"]))]))
  = inr (VObject [("available", VBool false);
                  ("available_ip_addresses", VList (VStr <$> ["10.0.0.5"]))])
  ∧ deserialize schema_on_200
      (VObject ([("available", VBool false)] ++
                ("extra", VObject [("nested", VInt 1)]) ::
                [("availableIPAddresses", VList (VStr <$> ["10.0.0.5"]))]))
    = deserialize schema_on_200
        (VObject ([("available", VBool false)] ++
                  [("availableIPAddresses", VList (VStr <$> ["10.0.0.5"]))])).
Proof.
  apply (undeclared_fields_ignored
           [("available", VBool false)]
           [("availableIPAddresses", VList (VStr <$> ["10.0.0.5"]))]
           "extra" (VObject [("nested", VInt 1)]) false ["10.0.0.5"]);
    [discriminate | discriminate | reflexivity | reflexivity].
Defined.

(** The operation, once the request is built and answered: the status
    code alone selects the path. *)
Lemma operation_answered send ctx request session :
  make_request ctx = inr request →
  send request = inr session →
  VirtualNetworksCheckIPAddressAvailability send ctx =
    if (status_code session =? 200)%Z
    then ([Send request; On200], on_200 ctx session)
    else ([Send request; OnError], on_error session).
Proof.
  intros Hr Hs. unfold VirtualNetworksCheckIPAddressAvailability.
  rewrite Hr. simpl. rewrite Hs. simpl. rewrite orb_false_r.
  destruct (status_code session =? 200)%Z; simpl.
  - by destruct (on_200 ctx session).
  - reflexivity.
Qed.

(** [on_200] never raises a [RemoteApiError]. *)
Lemma on_200_error ctx session e :
  on_200 ctx session = inl e → e = DeserializationError.
Proof.
  unfold on_200, set_var.
  destruct (deserialize schema_on_200 (body session)) as [e0|v] eqn:E; simpl;
    [|discriminate].
  intros [= <-]. by apply deserialize_error in E.
Qed.

(** C2: for every response the operation receives, status 200 takes the
    success path (the body is deserialized and stored), every other status
    takes the error path and raises the [RemoteApiError] decoded from the
    body; the body [{error: {code: NotFound, message: x}}] decodes to
    [RemoteApiError(code=NotFound, message=x)]; the success path never
    raises a [RemoteApiError], so exactly one path is taken. *)
Theorem status_code_classification send ctx request session :
  make_request ctx = inr request →
  send request = inr session →
  (status_code session = 200%Z →
     VirtualNetworksCheckIPAddressAvailability send ctx
     = ([Send request; On200],
        set_var ctx "instance" (body session) schema_on_200)) ∧
  (status_code session ≠ 200%Z →
     VirtualNetworksCheckIPAddressAvailability send ctx
     = ([Send request; OnError],
        inl (decode_error "MgmtErrorFormat" (body session)))) ∧
  (∀ code message,
     set_var ctx "instance" (body session) schema_on_200
     ≠ inl (RemoteApiError code message)) ∧
  decode_error "MgmtErrorFormat" Samples.not_found_body
  = RemoteApiError (Some "NotFound") (Some "x").
Proof.
  intros Hr Hs.
  rewrite (operation_answered send ctx request session Hr Hs).
  repeat split.
  - intros ->. reflexivity.
  - intros Hne. apply Z.eqb_neq in Hne. by rewrite Hne.
  - intros code message H. by apply (on_200_error ctx session) in H.
Qed.

Lemma status_code_classification_witness :
  (404%Z = 200%Z →
     VirtualNetworksCheckIPAddressAvailability Samples.send_not_found
       Samples.scenario_ctx
     = ([Send (Request "GET"
                 "/subscriptions/sub1/resourceGroups/rg1/providers/Microsoft.Network/virtualNetworks/vnet1/CheckIPAddressAvailability"
                 [("ipAddress", "10.0.0.4"); ("api-version", "2017-10-01")]
                 [("Accept", "application/json")]); On200],
        set_var Samples.scenario_ctx "instance" Samples.not_found_body schema_on_200)) ∧
  (404%Z ≠ 200%Z →
     VirtualNetworksCheckIPAddressAvailability Samples.send_not_found
       Samples.scenario_ctx
     = ([Send (Request "GET"
                 "/subscriptions/sub1/resourceGroups/rg1/providers/Microsoft.Network/virtualNetworks/vnet1/CheckIPAddressAvailability"
                 [("ipAddress", "10.0.0.4"); ("api-version", "2017-10-01")]
                 [("Accept", "application/json")]); OnError],
        inl (decode_error "MgmtErrorFormat" Samples.not_found_body))) ∧
  (∀ code message,
     set_var Samples.scenario_ctx "instance" Samples.not_found_body schema_on_200
     ≠ inl (RemoteApiError code message)) ∧
  decode_error "MgmtErrorFormat" Samples.not_found_body
  = RemoteApiError (Some "NotFound") (Some "x").
Proof.
  apply (status_code_classification Samples.send_not_found Samples.scenario_ctx
           _ (Response 404 Samples.not_found_body)); reflexivity.
Defined.

(** Which arguments of the command can be missing: [resource_group] and
    [name], never [ip_address]. *)
Lemma missing_required_arguments rg raw :
  missing_required (arguments rg) raw =
    (if supplies raw (arguments rg) "resource_group" then [] else ["resource_group"])
    ++ (if supplies raw (arguments rg) "name" then [] else ["name"]).
Proof.
  rewrite arguments_built. unfold missing_required, supplies. simpl.
  destruct (omitted raw ("resource_group", _)), (omitted raw ("name", _));
    reflexivity.
Qed.

(** C3: a raw argument mapping that omits a required argument of the
    command ([resource_group], [name]; [ip_address] is optional) fails
    validation; the collected errors hold one [MissingRequiredArgument]
    for each omitted required argument, naming it (two when both are
    omitted); the invocation fails with these errors and nothing runs. *)
Theorem missing_arguments_collected rg send subscription raw :
  missing_required (arguments rg) raw ≠ [] →
  ∃ errs,
    build (arguments rg) raw = inl errs ∧
    _handler rg send subscription raw = ([], Failed errs) ∧
    List.filter is_missing errs
    = MissingRequiredArgument <$> missing_required (arguments rg) raw ∧
    missing_required (arguments rg) raw =
      (if supplies raw (arguments rg) "resource_group" then [] else ["resource_group"])
      ++ (if supplies raw (arguments rg) "name" then [] else ["name"]) ∧
    (supplies raw (arguments rg) "resource_group" = false →
     supplies raw (arguments rg) "name" = false →
     List.filter is_missing errs
     = [MissingRequiredArgument "resource_group"; MissingRequiredArgument "name"]).
Proof.
  intros H. exists (validation_errors (arguments rg) raw).
  pose proof (build_missing _ _ H) as Hb.
  split; [done|].
  split; [unfold _handler; by rewrite Hb|].
  split; [apply validation_errors_missing|].
  split; [apply missing_required_arguments|].
  intros Hg Hn.
  rewrite validation_errors_missing, missing_required_arguments, Hg, Hn.
  reflexivity.
Qed.

Lemma missing_arguments_collected_witness :
  ∃ errs,
    build (arguments Samples.resource_group_settings) [("--ip-address", "10.0.0.4")]
      = inl errs ∧
    _handler Samples.resource_group_settings Samples.send_ok (Some "sub1")
      [("--ip-address", "10.0.0.4")] = ([], Failed errs) ∧
    List.filter is_missing errs
    = MissingRequiredArgument <$>
        missing_required (arguments Samples.resource_group_settings)
          [("--ip-address", "10.0.0.4")] ∧
    missing_required (arguments Samples.resource_group_settings)
      [("--ip-address", "10.0.0.4")] =
      (if supplies [("--ip-address", "10.0.0.4")]
            (arguments Samples.resource_group_settings) "resource_group"
       then [] else ["resource_group"])
      ++ (if supplies [("--ip-address", "10.0.0.4")]
               (arguments Samples.resource_group_settings) "name"
          then [] else ["name"]) ∧
    (supplies [("--ip-address", "10.0.0.4")]
       (arguments Samples.resource_group_settings) "resource_group" = false →
     supplies [("--ip-address", "10.0.0.4")]
       (arguments Samples.resource_group_settings) "name" = false →
     List.filter is_missing errs
     = [MissingRequiredArgument "resource_group"; MissingRequiredArgument "name"]).
Proof.
  apply (missing_arguments_collected Samples.resource_group_settings
           Samples.send_ok (Some "sub1") [("--ip-address", "10.0.0.4")]).
  vm_compute. discriminate.
Defined.

(** The events of the operation are the request and the path taken. *)
Lemma operation_events send ctx :
  Forall (λ e, is_operation_event e = true)
         (VirtualNetworksCheckIPAddressAvailability send ctx).1.
Proof.
  unfold VirtualNetworksCheckIPAddressAvailability.
  destruct (make_request ctx) as [e|request]; simpl; [constructor|].
  destruct (send request) as [e|session]; simpl; [by repeat constructor|].
  rewrite orb_false_r.
  destruct (status_code session =? 200)%Z; simpl.
  - destruct (on_200 ctx session); simpl; by repeat constructor.
  - by repeat constructor.
Qed.

(** An operation that ends well has set the variable [instance]. *)
Lemma operation_sets_instance send ctx ctx' :
  (VirtualNetworksCheckIPAddressAvailability send ctx).2 = inr ctx' →
  ∃ request session v,
    make_request ctx = inr request ∧ send request = inr session ∧
    status_code session = 200%Z ∧
    deserialize schema_on_200 (body session) = inr v ∧
    ctx' = Ctx (args ctx) (<["instance" := v]> (vars ctx)) (subscription_id ctx).
Proof.
  unfold VirtualNetworksCheckIPAddressAvailability.
  destruct (make_request ctx) as [e|request]; simpl; [discriminate|].
  destruct (send request) as [e|session] eqn:Es; simpl; [discriminate|].
  rewrite orb_false_r.
  destruct (status_code session =? 200)%Z eqn:E; simpl; [|discriminate].
  unfold on_200, set_var.
  destruct (deserialize schema_on_200 (body session)) as [e|v] eqn:Ed; simpl;
    [discriminate|].
  intros [= <-]. exists request, session, v.
  apply Z.eqb_eq in E. done.
Qed.

(** The handler after validation, by the outcome of the operation. *)
Lemma handler_validated rg send subscription raw validated :
  build (arguments rg) raw = inr validated →
  let op := VirtualNetworksCheckIPAddressAvailability send
              (Ctx validated ∅ subscription) in
  match op.2 with
  | inr ctx' =>
      _execute_operations send (Ctx validated ∅ subscription)
      = ([PreOperations] ++ op.1 ++ [PostOperations], inr ctx') ∧
      ∃ instance,
        vars ctx' !! "instance" = Some instance ∧
        _handler rg send subscription raw
        = ([PreOperations] ++ op.1 ++ [PostOperations; Output],
           Completed (deserialize_output instance true))
  | inl e =>
      _execute_operations send (Ctx validated ∅ subscription)
      = ([PreOperations] ++ op.1, inl e) ∧
      _handler rg send subscription raw = ([PreOperations] ++ op.1, Failed [e])
  end.
Proof.
  intros Hb op. unfold _handler, _execute_operations. rewrite Hb.
  fold op. pose proof (operation_sets_instance send (Ctx validated ∅ subscription)) as Hi.
  fold op in Hi.
  destruct op as [tr [e|ctx']]; simpl in *.
  - done.
  - destruct (Hi ctx' eq_refl) as (request & session & v & _ & _ & _ & _ & ->).
    split; [done|].
    exists v. unfold _output. simpl. rewrite lookup_insert_eq. simpl.
    split; [done|]. by rewrite <- app_assoc.
Qed.

(** C4: an invocation that reaches execution runs [pre_operations], then
    the single operation (its request and the response path), then
    [post_operations], then the output step, in that order; when the
    operation raises, the invocation fails with that error and neither
    [post_operations] nor the output step runs. *)
Theorem operations_in_order rg send subscription raw validated :
  build (arguments rg) raw = inr validated →
  let ctx := Ctx validated ∅ subscription in
  let op := VirtualNetworksCheckIPAddressAvailability send ctx in
  Forall (λ e, is_operation_event e = true) op.1 ∧
  match op.2 with
  | inr ctx' =>
      _execute_operations send ctx
      = ([PreOperations] ++ op.1 ++ [PostOperations], inr ctx') ∧
      ∃ v, _handler rg send subscription raw
           = ([PreOperations] ++ op.1 ++ [PostOperations; Output], Completed v)
  | inl e =>
      _execute_operations send ctx = ([PreOperations] ++ op.1, inl e) ∧
      _handler rg send subscription raw = ([PreOperations] ++ op.1, Failed [e]) ∧
      (PostOperations ∉ (_handler rg send subscription raw).1) ∧
      (Output ∉ (_handler rg send subscription raw).1)
  end.
Proof.
  intros Hb ctx op.
  pose proof (operation_events send ctx) as Hev. fold op in Hev.
  split; [done|].
  pose proof (handler_validated rg send subscription raw validated Hb) as H.
  simpl in H. fold ctx in H. fold op in H.
  destruct (op.2) as [e|ctx'].
  - destruct H as [He Hh]. rewrite Hh. simpl.
    repeat split; try done.
    + intros Hin. apply elem_of_cons in Hin as [?|Hin]; [done|].
      by apply (proj1 (Forall_forall _ _) Hev) in Hin.
    + intros Hin. apply elem_of_cons in Hin as [?|Hin]; [done|].
      by apply (proj1 (Forall_forall _ _) Hev) in Hin.
  - destruct H as [He (v & _ & Hh)]. split; [done|]. eauto.
Qed.

Lemma operations_in_order_witness :
  _handler Samples.resource_group_settings Samples.send_timeout (Some "sub1")
    Samples.scenario_args
  = ([PreOperations] ++
     (VirtualNetworksCheckIPAddressAvailability Samples.send_timeout
        Samples.scenario_ctx).1,
     Failed [TransportError "timeout"]) ∧
  (PostOperations ∉
     (_handler Samples.resource_group_settings Samples.send_timeout (Some "sub1")
        Samples.scenario_args).1) ∧
  (Output ∉
     (_handler Samples.resource_group_settings Samples.send_timeout (Some "sub1")
        Samples.scenario_args).1).
Proof.
  refine (proj2 (proj2 (operations_in_order Samples.resource_group_settings
                          Samples.send_timeout (Some "sub1")
                          Samples.scenario_args Samples.scenario_validated _))).
  reflexivity.
Defined.

(** C5: on a 200 response the operation stores the deserialized body in
    the context variable [instance]; the output step reads that variable,
    flattens it one level ([client_flatten=True]) and the handler returns
    the result. *)
Theorem instance_stored_and_returned
    rg send subscription raw validated request session v :
  build (arguments rg) raw = inr validated →
  make_request (Ctx validated ∅ subscription) = inr request →
  send request = inr session →
  status_code session = 200%Z →
  deserialize schema_on_200 (body session) = inr v →
  ∃ ctx',
    VirtualNetworksCheckIPAddressAvailability send (Ctx validated ∅ subscription)
    = ([Send request; On200], inr ctx') ∧
    vars ctx' !! "instance" = Some v ∧
    _output ctx' = Some (deserialize_output v true) ∧
    deserialize_output v true = flatten v ∧
    _handler rg send subscription raw
    = ([PreOperations; Send request; On200; PostOperations; Output],
       Completed (deserialize_output v true)).
Proof.
  intros Hb Hr Hs Hc Hd.
  pose proof (operation_answered send _ request session Hr Hs) as Hop.
  rewrite Hc in Hop. simpl in Hop. unfold on_200, set_var in Hop.
  rewrite Hd in Hop. simpl in Hop.
  eexists. split; [exact Hop|].
  pose proof (handler_validated rg send subscription raw validated Hb) as H.
  simpl in H. rewrite Hop in H. simpl in H.
  destruct H as (_ & instance & Hi & Hh).
  rewrite lookup_insert_eq in Hi. injection Hi as <-.
  simpl. rewrite lookup_insert_eq.
  unfold _output. simpl. rewrite lookup_insert_eq. simpl.
  repeat split; done.
Qed.

Lemma instance_stored_and_returned_witness :
  ∃ ctx',
    VirtualNetworksCheckIPAddressAvailability Samples.send_ok
      (Ctx Samples.scenario_validated ∅ (Some "sub1"))
    = ([Send (Request "GET"
                "/subscriptions/sub1/resourceGroups/rg1/providers/Microsoft.Network/virtualNetworks/vnet1/CheckIPAddressAvailability"
                [("ipAddress", "10.0.0.4"); ("api-version", "2017-10-01")]
                [("Accept", "application/json")]); On200], inr ctx') ∧
    vars ctx' !! "instance"
    = Some (VObject [("available", VBool true); ("available_ip_addresses", VList [])]) ∧
    _output ctx'
    = Some (deserialize_output
              (VObject [("available", VBool true); ("available_ip_addresses", VList [])])
              true) ∧
    deserialize_output
      (VObject [("available", VBool true); ("available_ip_addresses", VList [])]) true
    = flatten (VObject [("available", VBool true); ("available_ip_addresses", VList [])]) ∧
    _handler Samples.resource_group_settings Samples.send_ok (Some "sub1")
      Samples.scenario_args
    = ([PreOperations;
        Send (Request "GET"
                "/subscriptions/sub1/resourceGroups/rg1/providers/Microsoft.Network/virtualNetworks/vnet1/CheckIPAddressAvailability"
                [("ipAddress", "10.0.0.4"); ("api-version", "2017-10-01")]
                [("Accept", "application/json")]);
        On200; PostOperations; Output],
       Completed (deserialize_output
                    (VObject [("available", VBool true);
                              ("available_ip_addresses", VList [])]) true)).
Proof.
  apply (instance_stored_and_returned Samples.resource_group_settings
           Samples.send_ok (Some "sub1") Samples.scenario_args
           Samples.scenario_validated _ (Response 200 Samples.scenario_body));
    reflexivity.
Defined.

End CheckIpAddressFacts.

(** ** The class-level caches *)

Section CacheFacts.
Import AAZ CheckIpAddress.

#[local] Arguments update : simpl never.

(** Addresses past a prefix [h] of the heap. *)
Lemma lookup_past (h t : heap) k : (h ++ t) !! (length h + k) = t !! k.
Proof. rewrite lookup_app_r by lia. f_equal. lia. Qed.

Lemma lookup_here (h t : heap) : (h ++ t) !! length h = t !! 0.
Proof. by rewrite <- (Nat.add_0_r (length h)), lookup_past. Qed.

Lemma update_past (h t t' : heap) k f :
  update k f t = Some t' →
  update (length h + k) f (h ++ t) = Some (h ++ t').
Proof.
  unfold update. rewrite lookup_past.
  destruct (t !! k) as [o|]; simpl; [|discriminate].
  destruct (f o) as [o'|]; simpl; [|discriminate].
  intros [= <-]. by rewrite insert_app_r.
Qed.

Lemma update_here (h t t' : heap) f :
  update 0 f t = Some t' →
  update (length h) f (h ++ t) = Some (h ++ t').
Proof. rewrite <- (Nat.add_0_r (length h)). apply update_past. Qed.

(** One assignment, constructor call or attribute access on a heap with
    prefix [h]. *)
Ltac heap_step :=
  first [ rewrite length_app
        | rewrite <- app_assoc
        | erewrite update_past by reflexivity
        | erewrite update_here by reflexivity
        | rewrite lookup_past
        | rewrite lookup_here ];
  simpl.

(** The first call of [_build_arguments_schema] creates one object, the
    arguments schema, and stores its address in the class attribute. *)
Lemma build_arguments_first rg h s :
  _build_arguments_schema rg (Classes h None s)
  = Some (length h, Classes (h ++ [ArgumentsSchema (arguments rg)])
                            (Some (length h)) s).
Proof.
  unfold _build_arguments_schema. simpl.
  repeat heap_step. reflexivity.
Qed.

(** The first call of [_build_schema_on_200] creates the object type, its
    two field types and the element type of the list. *)
Lemma build_schema_first h a :
  _build_schema_on_200 (Classes h a None)
  = Some (length h,
          Classes (h ++ [ObjectType None [("available", length h + 1);
                                          ("available_ip_addresses", length h + 2)];
                         BoolType None;
                         ListType (Some "availableIPAddresses") (Some (length h + 3));
                         StrType None])
                  a (Some (length h))).
Proof.
  unfold _build_schema_on_200. simpl.
  repeat heap_step. reflexivity.
Qed.

(** The objects just built stand for the response schema. *)
Lemma schema_of_built (h : heap) :
  schema_of 3
    (h ++ [ObjectType None [("available", length h + 1);
                            ("available_ip_addresses", length h + 2)];
           BoolType None;
           ListType (Some "availableIPAddresses") (Some (length h + 3));
           StrType None])
    (length h)
  = Some schema_on_200.
Proof.
  simpl. repeat heap_step. reflexivity.
Qed.

(** Once the class attribute is set, a builder returns it and changes
    nothing, however often it is called. *)
Lemma calls_cached (builder : classes → option (nat * classes)) r cls n :
  builder cls = Some (r, cls) →
  calls builder n cls = Some (replicate n r, cls).
Proof.
  intros H. induction n as [|n IH]; simpl; [done|].
  rewrite H. simpl. rewrite IH. reflexivity.
Qed.

Lemma build_arguments_cached rg r cls :
  _args_schema cls = Some r → _build_arguments_schema rg cls = Some (r, cls).
Proof. intros H. unfold _build_arguments_schema. by rewrite H. Qed.

Lemma build_schema_cached r cls :
  _schema_on_200 cls = Some r → _build_schema_on_200 cls = Some (r, cls).
Proof. intros H. unfold _build_schema_on_200. by rewrite H. Qed.

(** C6: in every class state, [_build_arguments_schema] returns a
    reference [r] and leaves it in the class attribute; the second and
    every later call return the same reference [r] (the identical object,
    not a copy) and leave the state unchanged. The first call with an
    empty attribute constructs the schema as a new object. The same holds
    of [_build_schema_on_200]. *)
Theorem schema_builders_memoize rg cls n :
  (∃ r cls1,
     _build_arguments_schema rg cls = Some (r, cls1) ∧
     _args_schema cls1 = Some r ∧
     calls (_build_arguments_schema rg) n cls1 = Some (replicate n r, cls1) ∧
     match _args_schema cls with
     | Some r0 => r = r0 ∧ cls1 = cls
     | None => r = length (objects cls) ∧
               arguments_of (objects cls1) r = Some (arguments rg)
     end) ∧
  (∃ r cls1,
     _build_schema_on_200 cls = Some (r, cls1) ∧
     _schema_on_200 cls1 = Some r ∧
     calls _build_schema_on_200 n cls1 = Some (replicate n r, cls1) ∧
     match _schema_on_200 cls with
     | Some r0 => r = r0 ∧ cls1 = cls
     | None => r = length (objects cls) ∧
               schema_of 3 (objects cls1) r = Some schema_on_200
     end).
Proof.
  destruct cls as [h a s]. split.
  - destruct a as [r0|].
    + exists r0, (Classes h (Some r0) s).
      split; [by apply build_arguments_cached|].
      split; [done|].
      split; [|done].
      apply calls_cached. by apply build_arguments_cached.
    + eexists _, _. split; [apply build_arguments_first|].
      split; [done|].
      split; [apply calls_cached; by apply build_arguments_cached|].
      simpl. split; [done|].
      unfold arguments_of. rewrite lookup_here. reflexivity.
  - destruct s as [r0|].
    + exists r0, (Classes h a (Some r0)).
      split; [by apply build_schema_cached|].
      split; [done|].
      split; [|done].
      apply calls_cached. by apply build_schema_cached.
    + eexists _, _. split; [apply build_schema_first|].
      split; [done|].
      split; [apply calls_cached; by apply build_schema_cached|].
      simpl. split; [done|]. apply schema_of_built.
Qed.

End CacheFacts.

(** ** [login] beyond the argument check *)

Section LoginFacts.
Import Py ProfileCustom LoginTrace.

(** The monad laws the proofs need. *)
Lemma bind_value {A B} (x : A) (k : A → M B) : (([], inr x) ≫= k) = k x.
Proof. unfold mbind, M_bind. by destruct (k x). Qed.

Lemma bind_emit {B} (e : event) (k : unit → M B) :
  (emit e ≫= k) = (e :: (k tt).1, (k tt).2).
Proof. unfold mbind, M_bind, emit. by destruct (k tt). Qed.

(** Consistent arguments pass the argument check. *)
Lemma usage_check_passes a :
  ¬ inconsistent a → usage_check a = ([], inr tt).
Proof.
  unfold inconsistent, is_set, usage_check, when, py_any. simpl.
  intros H.
  destruct (truthy (password a)), (truthy (service_principal a)),
    (truthy (tenant a)), (truthy (identity a)), (truthy (username a)),
    (truthy (use_device_code a)), (truthy (use_cert_sn_issuer a)); simpl;
    try reflexivity; exfalso; apply H; clear H; intuition congruence.
Qed.

Lemma inconsistent_dec a : inconsistent a ∨ ¬ inconsistent a.
Proof.
  unfold inconsistent, is_set.
  destruct (truthy (password a)), (truthy (service_principal a)),
    (truthy (tenant a)), (truthy (identity a)), (truthy (username a)),
    (truthy (use_device_code a)), (truthy (use_cert_sn_issuer a));
    intuition congruence.
Qed.

(** With consistent arguments the first thing [login] does is to create
    the [Profile]. *)
Lemma login_consistent env a :
  ¬ inconsistent a → ∃ tr r, login env a = (ProfileNew :: tr, r).
Proof.
  intros H. unfold login.
  rewrite (usage_check_passes a H), bind_value, bind_emit. eauto.
Qed.

(** X1: [login] raises before creating the [Profile] only on an
    inconsistent argument combination: its trace is empty if and only if
    the arguments are inconsistent. *)
Theorem login_trace_empty_iff env a :
  (login env a).1 = [] ↔ inconsistent a.
Proof.
  split.
  - intros Htr. destruct (inconsistent_dec a) as [H|H]; [done|].
    destruct (login_consistent env a H) as (tr & r & Hl).
    rewrite Hl in Htr. discriminate.
  - intros H. destruct (usage_check_raises a H) as (msg & Hc & _).
    unfold login. by rewrite Hc.
Qed.

(** X2: [--identity] together with a password, a service principal or a
    tenant is reported with the identity message, whatever else is wrong
    with the arguments. *)
Theorem login_identity_message env a :
  is_set (identity a) →
  is_set (password a) ∨ is_set (service_principal a) ∨ is_set (tenant a) →
  login env a = ([], inl (CLIError USAGE_IDENTITY)).
Proof.
  unfold is_set. intros Hi H.
  unfold login, usage_check, when, py_any. simpl. rewrite Hi.
  destruct (truthy (password a)), (truthy (service_principal a)),
    (truthy (tenant a)); simpl; try reflexivity.
  exfalso. intuition congruence.
Qed.

Lemma login_identity_message_witness :
  login Samples.quiet_env Samples.identity_with_password
  = ([], inl (CLIError USAGE_IDENTITY)).
Proof.
  apply (login_identity_message Samples.quiet_env Samples.identity_with_password);
    [reflexivity | left; reflexivity].
Defined.

(** The run of [login] past the argument check, with [--identity]. *)
Lemma login_identity_unfold env a :
  ¬ inconsistent a → truthy (identity a) = true →
  login env a =
    if in_cloud_console env
    then ([ProfileNew; ProfileLoginInCloudShell],
          answer_map LoginValue (login_in_cloud_shell env))
    else ([ProfileNew;
           ProfileLoginWithManagedIdentity (username a) (allow_no_subscriptions a)],
          answer_map LoginValue
            (login_with_managed_identity env (username a)
               (allow_no_subscriptions a))).
Proof.
  intros H Hi.
  unfold login. rewrite (usage_check_passes a H). simpl. rewrite Hi.
  destruct (in_cloud_console env); reflexivity.
Qed.

(** X3: with [--identity] and otherwise consistent arguments, [login] goes
    to Cloud Shell or to the managed identity and returns what that call
    returns; it never asks for a password and never calls
    [profile.login]. *)
Theorem login_identity_path env a :
  ¬ inconsistent a → is_set (identity a) →
  login env a =
    if in_cloud_console env
    then ([ProfileNew; ProfileLoginInCloudShell],
          answer_map LoginValue (login_in_cloud_shell env))
    else ([ProfileNew;
           ProfileLoginWithManagedIdentity (username a) (allow_no_subscriptions a)],
          answer_map LoginValue
            (login_with_managed_identity env (username a)
               (allow_no_subscriptions a))).
Proof. unfold is_set. apply login_identity_unfold. Qed.

Lemma login_identity_path_witness :
  login Samples.quiet_env Samples.identity_only =
    if in_cloud_console Samples.quiet_env
    then ([ProfileNew; ProfileLoginInCloudShell],
          answer_map LoginValue (login_in_cloud_shell Samples.quiet_env))
    else ([ProfileNew;
           ProfileLoginWithManagedIdentity (username Samples.identity_only)
             (allow_no_subscriptions Samples.identity_only)],
          answer_map LoginValue
            (login_with_managed_identity Samples.quiet_env
               (username Samples.identity_only)
               (allow_no_subscriptions Samples.identity_only))).
Proof.
  apply (login_identity_path Samples.quiet_env Samples.identity_only);
    [|reflexivity].
  unfold inconsistent, is_set. simpl. intuition congruence.
Defined.

(** X4: a username without password and without client assertion makes
    [login] ask for the password; where no terminal is there to ask,
    [login] fails with a [CLIError] and [profile.login] is not called. *)
Theorem login_no_tty env a :
  ¬ inconsistent a → ¬ is_set (identity a) →
  is_set (username a) → ¬ is_set (password a) → ¬ is_set (client_assertion a) →
  prompt_pass env = None →
  login env a =
    ([ProfileNew] ++
     (if in_cloud_console env then [Warning _CLOUD_CONSOLE_LOGIN_WARNING] else []) ++
     [PromptPass "Password: "],
     inl (CLIError NON_INTERACTIVE)).
Proof.
  unfold is_set. intros H Hi Hu Hp Hc Hn.
  unfold login. rewrite (usage_check_passes a H). simpl.
  apply not_true_is_false in Hi, Hp, Hc.
  rewrite Hi, Hu, Hp, Hc, Hn. simpl.
  destruct (in_cloud_console env); reflexivity.
Qed.

Lemma login_no_tty_witness :
  login Samples.quiet_env Samples.username_only =
    ([ProfileNew] ++
     (if in_cloud_console Samples.quiet_env
      then [Warning _CLOUD_CONSOLE_LOGIN_WARNING] else []) ++
     [PromptPass "Password: "],
     inl (CLIError NON_INTERACTIVE)).
Proof.
  apply (login_no_tty Samples.quiet_env Samples.username_only);
    unfold inconsistent, is_set; simpl; try reflexivity; intuition congruence.
Defined.

(** The run of [login] past the argument check, for arguments without
    [--identity]. *)
Lemma login_unfold env a :
  ¬ inconsistent a → truthy (identity a) = false →
  login env a =
    (emit ProfileNew ;;
     when (in_cloud_console env) (emit (Warning _CLOUD_CONSOLE_LOGIN_WARNING)) ;;
     '(password1, interactive) ←
       (if truthy (username a) then
          if negb (truthy (password a) || truthy (client_assertion a)) then
            match prompt_pass env with
            | Some p => emit (PromptPass "Password: ") ;; mret (p, false)
            | None => emit (PromptPass "Password: ") ;; raise (CLIError NON_INTERACTIVE)
            end
          else mret (password a, false)
        else mret (password a, true)) ;
     password2 ←
       (if truthy (service_principal a)
        then call (BuildCredential password1 (client_assertion a) (use_cert_sn_issuer a))
                  (build_credential env password1 (client_assertion a)
                     (use_cert_sn_issuer a))
        else mret password1) ;
     let select_subscription :=
       interactive && stdin_isatty env && stdout_isatty env
       && login_experience_v2 env in
     subscriptions ←
       call (ProfileLogin interactive (username a) password2 (service_principal a)
               (tenant a) (scopes a) (use_device_code a) (allow_no_subscriptions a)
               (use_cert_sn_issuer a) select_subscription)
            (profile_login env interactive a password2 select_subscription) ;
     if select_subscription then
       selected ← call SubscriptionSelector (subscription_selector env subscriptions) ;
       call (ProfileSetActiveSubscription selected)
            (profile_set_active_subscription env selected) ;;
       emit (Print LOGIN_ANNOUNCEMENT) ;;
       emit (Warning LOGIN_OUTPUT_WARNING) ;;
       mret LoginNone
     else
       let '(h, all_subscriptions) := subscriptions in
       mret (LoginSubscriptions (rename_all all_subscriptions h) all_subscriptions)).
Proof.
  intros H Hi. unfold login.
  rewrite (usage_check_passes a H), bind_value, Hi. reflexivity.
Qed.

(** Case analysis on everything a run of [login] branches on. *)
Ltac login_cases :=
  repeat (simpl in *;
          match goal with
          | |- context [match ?x with _ => _ end] =>
              lazymatch x with
              | context [match _ with _ => _ end] => fail
              | _ => destruct x eqn:?
              end
          | H : context [match ?x with _ => _ end] |- _ =>
              lazymatch x with
              | context [match _ with _ => _ end] => fail
              | _ => destruct x eqn:?
              end
          end);
  simpl in *.



(** X6: without a username (and without [--identity]) [login] is
    interactive: it never asks for a password itself, and calls
    [profile.login] exactly once, with [interactive] true and
    [show_progress] true exactly at a terminal with the new login
    experience. *)
Theorem login_without_username env a :
  ¬ inconsistent a → ¬ is_set (identity a) → ¬ is_set (username a) →
  login_flags (login env a).1 =
    [(true, stdin_isatty env && stdout_isatty env && login_experience_v2 env)] ∧
  existsb is_prompt (login env a).1 = false.
Proof.
  unfold is_set. intros H Hi Hu.
  apply not_true_is_false in Hi, Hu.
  assert (Hsp : truthy (service_principal a) = false).
  { destruct (truthy (service_principal a)) eqn:E; [|done].
    exfalso. apply H. unfold inconsistent, is_set. rewrite E, Hu.
    right. right. right. split; congruence. }
  rewrite (login_unfold env a H Hi), Hu, Hsp.
  unfold when, call, emit, raise, login_flags.
  login_cases; split; reflexivity.
Qed.

Lemma login_without_username_witness :
  login_flags (login Samples.terminal_env ProfileCustom.login_defaults).1 =
    [(true, stdin_isatty Samples.terminal_env && stdout_isatty Samples.terminal_env
            && login_experience_v2 Samples.terminal_env)] ∧
  existsb is_prompt (login Samples.terminal_env ProfileCustom.login_defaults).1 = false.
Proof.
  apply (login_without_username Samples.terminal_env ProfileCustom.login_defaults);
    unfold inconsistent, is_set; simpl; intuition congruence.
Defined.

(** Where the subscriptions [login] returns come from. *)
Lemma login_subscriptions_origin env a h subs :
  (login env a).2 = inr (LoginSubscriptions h subs) →
  ∃ interactive password2 show_progress h0,
    profile_login env interactive a password2 show_progress = inr (h0, subs) ∧
    h = rename_all subs h0.
Proof.
  destruct (inconsistent_dec a) as [H|H].
  { destruct (usage_check_raises a H) as (msg & Hc & _).
    unfold login. rewrite Hc. discriminate. }
  destruct (truthy (identity a)) eqn:Hi.
  { rewrite (login_identity_unfold env a H Hi).
    destruct (in_cloud_console env); simpl.
    - destruct (login_in_cloud_shell env); discriminate.
    - destruct (login_with_managed_identity env _ _); discriminate. }
  rewrite (login_unfold env a H Hi).
  unfold when, call, emit, raise.
  intros Hr. login_cases; simplify_eq; eauto 10.
Qed.

(** X7: every subscription dictionary [login] returns has a [cloudName]
    key and no [environmentName] key, as for [list_subscriptions]. *)
Theorem login_subscriptions_renamed env a h subs :
  (∀ interactive password2 show_progress r,
     profile_login env interactive a password2 show_progress = inr r →
     well_formed r) →
  (login env a).2 = inr (LoginSubscriptions h subs) →
  ∀ s, s ∈ subs →
    ∃ d, h !! s = Some d ∧ is_Some (d !! "cloudName") ∧
         d !! "environmentName" = None.
Proof.
  intros Hwf Hr s Hs.
  destruct (login_subscriptions_origin env a h subs Hr)
    as (i & p & sp & h0 & Hp & ->).
  pose proof (Hwf _ _ _ _ Hp) as Hw. unfold well_formed in Hw. simpl in Hw.
  pose proof (proj1 (Forall_forall _ _) Hw s Hs) as [d0 Hd0].
  destruct (rename_all_renamed subs h0 s d0 Hs Hd0) as (d & Hd & Hc & He & _).
  exists d. split; [done|]. split; [|done].
  destruct Hc as [-> | ->]; eauto.
Qed.

Lemma login_subscriptions_renamed_witness :
  ∃ d, rename_all [0; 1; 0] Samples.loaded_store !! 1 = Some d ∧
       is_Some (d !! "cloudName") ∧ d !! "environmentName" = None.
Proof.
  apply (login_subscriptions_renamed Samples.terminal_env
           Samples.service_principal_login
           (rename_all [0; 1; 0] Samples.loaded_store) [0; 1; 0]).
  - intros i p sp r [= <-]. repeat constructor; vm_compute; eauto.
  - reflexivity.
  - vm_compute. right. left.
Defined.

(** X8: for a service principal the secret goes through
    [ServicePrincipalAuth.build_credential], and it is the credential built
    there, not the password argument, that [profile.login] receives; the
    call is not interactive. *)
Theorem login_service_principal env a credential :
  ¬ inconsistent a → is_set (service_principal a) → is_set (password a) →
  build_credential env (password a) (client_assertion a) (use_cert_sn_issuer a)
  = inr credential →
  login env a =
    ([ProfileNew] ++
     (if in_cloud_console env then [Warning _CLOUD_CONSOLE_LOGIN_WARNING] else []) ++
     [BuildCredential (password a) (client_assertion a) (use_cert_sn_issuer a);
      ProfileLogin false (username a) credential (service_principal a) (tenant a)
        (scopes a) (use_device_code a) (allow_no_subscriptions a)
        (use_cert_sn_issuer a) false],
     match profile_login env false a credential false with
     | inl e => inl e
     | inr (h0, l) => inr (LoginSubscriptions (rename_all l h0) l)
     end).
Proof.
  unfold is_set. intros H Hsp Hp Hb.
  assert (Hu : truthy (username a) = true).
  { destruct (truthy (username a)) eqn:E; [done|].
    exfalso. apply H. unfold inconsistent, is_set. rewrite E, Hsp.
    right. right. right. split; congruence. }
  assert (Hi : truthy (identity a) = false).
  { destruct (truthy (identity a)) eqn:E; [|done].
    exfalso. apply H. unfold inconsistent, is_set. rewrite E, Hsp. left. eauto. }
  rewrite (login_unfold env a H Hi), Hu, Hp, Hsp.
  unfold when, call, emit. simpl. rewrite Hb. simpl.
  destruct (in_cloud_console env); simpl;
    destruct (profile_login env false a credential false) as [e|[h0 l]];
    reflexivity.
Qed.

Lemma login_service_principal_witness :
  login Samples.terminal_env Samples.service_principal_login =
    ([ProfileNew] ++
     (if in_cloud_console Samples.terminal_env
      then [Warning _CLOUD_CONSOLE_LOGIN_WARNING] else []) ++
     [BuildCredential (PyStr "secret") PyNone PyNone;
      ProfileLogin false (PyStr "app") (PyStr "credential") (PyBool true)
        (PyStr "t") PyNone (PyBool false) (PyBool false) PyNone false],
     match profile_login Samples.terminal_env false
             Samples.service_principal_login (PyStr "credential") false with
     | inl e => inl e
     | inr (h0, l) => inr (LoginSubscriptions (rename_all l h0) l)
     end).
Proof.
  apply (login_service_principal Samples.terminal_env
           Samples.service_principal_login (PyStr "credential"));
    unfold inconsistent, is_set; simpl; try reflexivity; intuition congruence.
Defined.

(** X9: at a terminal with the new login experience, an interactive
    [login] lets the user select a subscription, makes it the active one
    and returns nothing (no subscription list is printed). *)
Theorem login_selects_subscription env a subscriptions selected :
  ¬ inconsistent a → ¬ is_set (identity a) → ¬ is_set (username a) →
  stdin_isatty env = true → stdout_isatty env = true →
  login_experience_v2 env = true →
  profile_login env true a (password a) true = inr subscriptions →
  subscription_selector env subscriptions = inr selected →
  profile_set_active_subscription env selected = inr tt →
  login env a =
    ([ProfileNew] ++
     (if in_cloud_console env then [Warning _CLOUD_CONSOLE_LOGIN_WARNING] else []) ++
     [ProfileLogin true (username a) (password a) (service_principal a) (tenant a)
        (scopes a) (use_device_code a) (allow_no_subscriptions a)
        (use_cert_sn_issuer a) true;
      SubscriptionSelector;
      ProfileSetActiveSubscription selected;
      Print LOGIN_ANNOUNCEMENT;
      Warning LOGIN_OUTPUT_WARNING],
     inr LoginNone).
Proof.
  unfold is_set. intros H Hi Hu Hin Hout Hv Hl Hs Ha.
  apply not_true_is_false in Hi, Hu.
  assert (Hsp : truthy (service_principal a) = false).
  { destruct (truthy (service_principal a)) eqn:E; [|done].
    exfalso. apply H. unfold inconsistent, is_set. rewrite E, Hu.
    right. right. right. split; congruence. }
  rewrite (login_unfold env a H Hi), Hu, Hsp, Hin, Hout, Hv.
  unfold when, call, emit. simpl. rewrite Hl. simpl. rewrite Hs. simpl.
  rewrite Ha. simpl.
  destruct (in_cloud_console env); reflexivity.
Qed.

Lemma login_selects_subscription_witness :
  login Samples.terminal_env ProfileCustom.login_defaults =
    ([ProfileNew] ++
     (if in_cloud_console Samples.terminal_env
      then [Warning _CLOUD_CONSOLE_LOGIN_WARNING] else []) ++
     [ProfileLogin true PyNone PyNone PyNone PyNone PyNone (PyBool false)
        (PyBool false) PyNone true;
      SubscriptionSelector;
      ProfileSetActiveSubscription (PyStr "sub1");
      Print LOGIN_ANNOUNCEMENT;
      Warning LOGIN_OUTPUT_WARNING],
     inr LoginNone).
Proof.
  apply (login_selects_subscription Samples.terminal_env
           ProfileCustom.login_defaults (Samples.loaded_store, [0; 1; 0])
           (PyStr "sub1"));
    unfold inconsistent, is_set; simpl; try reflexivity; intuition congruence.
Defined.

End LoginFacts.

(** ** [list_subscriptions] beyond the returned keys *)

Section ListSubscriptionsFacts.
Import Py ProfileCustom.

(** The renaming loop touches the listed objects only. *)
Lemma rename_all_unlisted subs : ∀ (h : store) s,
  s ∉ subs → rename_all subs h !! s = h !! s.
Proof.
  induction subs as [|a subs IH]; intros h s Hs; simpl; [done|].
  apply not_elem_of_cons in Hs as [Hne Hs].
  rewrite IH by done. by rewrite lookup_alter_ne.
Qed.

(** It keeps every object, and every key but the two it renames. *)
Lemma rename_all_keeps_keys subs : ∀ (h : store) s d0 k,
  h !! s = Some d0 → k ≠ "cloudName" → k ≠ "environmentName" →
  ∃ d, rename_all subs h !! s = Some d ∧ d !! k = d0 !! k.
Proof.
  induction subs as [|a subs IH]; intros h s d0 k Hs Hc He; simpl; [eauto|].
  destruct (decide (a = s)) as [->|Hne].
  - destruct (IH (alter rename_environment s h) s (rename_environment d0) k)
      as (d & Hd & Hk); try done.
    { by rewrite lookup_alter_eq, Hs. }
    exists d. split; [done|]. rewrite Hk.
    destruct (rename_environment_renamed d0) as (_ & _ & Hkeep). by apply Hkeep.
  - apply IH; try done. by rewrite lookup_alter_ne.
Qed.

(** X10: [list_subscriptions] changes nothing but the two keys it renames:
    a subscription that is not listed is left as it was, and every
    subscription keeps the value of every key other than [cloudName] and
    [environmentName] (its id, name, state, ...). *)
Theorem list_subscriptions_preserves load all refresh s :
  (s ∉ (load all refresh).2 →
   (list_subscriptions load all refresh).1.2 !! s = (load all refresh).1 !! s) ∧
  (∀ d0 k, (load all refresh).1 !! s = Some d0 →
           k ≠ "cloudName" → k ≠ "environmentName" →
           ∃ d, (list_subscriptions load all refresh).1.2 !! s = Some d ∧
                d !! k = d0 !! k).
Proof.
  destruct (list_subscriptions_returns load all refresh) as [Hh _].
  simpl in Hh. rewrite Hh. split.
  - apply rename_all_unlisted.
  - intros d0 k. apply rename_all_keeps_keys.
Qed.

Lemma list_subscriptions_preserves_witness :
  ∃ d, (list_subscriptions Samples.load_subscriptions false false).1.2 !! 1 = Some d ∧
       d !! "state" = ({[ "state" := PyStr "Disabled" ]} : dict) !! "state".
Proof.
  apply (proj2 (list_subscriptions_preserves Samples.load_subscriptions false false 1)
           {[ "state" := PyStr "Disabled" ]} "state");
    [reflexivity | discriminate | discriminate].
Defined.

Lemma filter_length_all {A} (f : A → bool) l :
  length (List.filter f l) = length l ↔ Forall (λ x, f x = true) l.
Proof.
  induction l as [|x l IH]; simpl; [split; [constructor|done]|].
  destruct (f x) eqn:E; simpl.
  - split.
    + intros H. constructor; [done|]. apply IH. lia.
    + intros H. inversion H; subst. f_equal. by apply IH.
  - split.
    + intros H. pose proof (filter_length_le f l). lia.
    + intros H. inversion H; subst. congruence.
Qed.

(** X11: the warnings of [list_subscriptions]: the hint to run [az login]
    is logged exactly when nothing is loaded, and the warning about
    skipped accounts exactly when [all] is false and some listed
    subscription is not in state [Enabled]. *)
Theorem list_subscriptions_warnings load all refresh :
  (NOT_LOGGED_IN ∈ (list_subscriptions load all refresh).1.1
   ↔ (load all refresh).2 = []) ∧
  (SKIPPED_WARNING ∈ (list_subscriptions load all refresh).1.1
   ↔ all = false ∧
     ¬ Forall (λ s, is_enabled (list_subscriptions load all refresh).1.2 s = true)
         (load all refresh).2).
Proof.
  assert (Hne : NOT_LOGGED_IN ≠ SKIPPED_WARNING) by (vm_compute; discriminate).
  unfold list_subscriptions.
  destruct (load all refresh) as [h0 subs]; simpl.
  destruct all; simpl.
  - split.
    + destruct subs; simpl; split; try done.
      * intros _. apply list_elem_of_here.
      * intros H. by apply elem_of_nil in H.
    + split; [|by intros [? _]].
      destruct subs; simpl; intros H.
      * apply list_elem_of_singleton in H. congruence.
      * by apply elem_of_nil in H.
  - destruct (length (List.filter _ subs) =? length subs) eqn:E; simpl.
    + apply Nat.eqb_eq, filter_length_all in E. split.
      * destruct subs; simpl; split; try done.
        -- intros _. apply list_elem_of_here.
        -- intros H. by apply elem_of_nil in H.
      * split; [|intros [_ H]; by destruct H].
        destruct subs; simpl; intros H.
        -- apply list_elem_of_singleton in H. congruence.
        -- by apply elem_of_nil in H.
    + apply Nat.eqb_neq in E. rewrite filter_length_all in E. split.
      * destruct subs; simpl.
        -- exfalso. apply E. constructor.
        -- split; [|done]. intros H. apply list_elem_of_singleton in H. congruence.
      * split; [done|]. intros _. apply elem_of_app. right. apply list_elem_of_here.
Qed.

(** X12: [list_subscriptions] returns the loaded list, in its order,
    without the entries whose state is not [Enabled] when [all] is false,
    and whole when [all] is true. *)
Theorem list_subscriptions_filters load all refresh :
  (list_subscriptions load all refresh).2 =
    List.filter (λ s, all || is_enabled (list_subscriptions load all refresh).1.2 s)
                (load all refresh).2.
Proof.
  destruct (list_subscriptions_returns load all refresh) as [Hh Hr].
  simpl in Hh. rewrite Hh, Hr. destruct all; simpl; [|done].
  symmetry. apply filter_all_kept, filter_length_all, Forall_forall. done.
Qed.

End ListSubscriptionsFacts.

(** ** The account commands of [profile/custom.py] *)

Section ProfileAccountFacts.
Import Py ProfileAccount.




(** X14: a resource given explicitly is used as it is: [get_access_token]
    then never consults the resource type (nor the cloud's endpoints), so
    the resource type makes no difference, and the only collaborator
    called is [profile.get_raw_token], with that resource. *)
Theorem get_access_token_explicit_resource
    e subscription resource scopes resource_type resource_type' tenant :
  resource ≠ PyNone →
  (get_access_token e subscription resource scopes resource_type tenant).1
  = [ProfileNew; ProfileGetRawToken subscription resource scopes tenant] ∧
  get_access_token e subscription resource scopes resource_type tenant
  = get_access_token e subscription resource scopes resource_type' tenant.
Proof.
  intros Hr.
  assert (Hn : is_none resource = false) by (by destruct resource).
  unfold get_access_token, call, emit, lift, item. rewrite Hn. simpl.
  destruct (get_raw_token e subscription resource scopes tenant)
    as [ex|[[c s'] t']]; simpl; [done|].
  destruct (c.2 !! "expires_on"); simpl; [|done].
  destruct (c.2 !! "expiresOn"); simpl; done.
Qed.

Lemma get_access_token_explicit_resource_witness :
  (get_access_token Samples.account_env PyNone (PyStr "https://storage.azure.com/")
     PyNone (PyStr "no-such-type") PyNone).1
  = [ProfileNew;
     ProfileGetRawToken PyNone (PyStr "https://storage.azure.com/") PyNone PyNone] ∧
  get_access_token Samples.account_env PyNone (PyStr "https://storage.azure.com/")
    PyNone (PyStr "no-such-type") PyNone
  = get_access_token Samples.account_env PyNone (PyStr "https://storage.azure.com/")
      PyNone PyNone PyNone.
Proof.
  apply (get_access_token_explicit_resource Samples.account_env PyNone
           (PyStr "https://storage.azure.com/") PyNone (PyStr "no-such-type")
           PyNone PyNone).
  discriminate.
Defined.

(** Lookup of a string that is no key of the mapping. *)
Lemma find_not_key (d : list (string * string)) s :
  s ∉ d.*1 → List.find (λ kv, String.eqb kv.1 s) d = None.
Proof.
  induction d as [|[k v] d IH]; simpl; [done|].
  intros H. apply not_elem_of_cons in H as [Hne H].
  destruct (String.eqb_spec k s); [congruence|]. by apply IH.
Qed.

(** X15: without a resource, a resource type that is not one of the keys
    of [cloud_resource_type_mappings] makes [get_access_token] fail with a
    [KeyError] before anything else happens: no [Profile] is created and no
    token is requested. *)
Theorem get_access_token_unknown_type e subscription scopes tenant s :
  s ≠ EmptyString →
  s ∉ cloud_resource_type_mappings.*1 →
  get_access_token e subscription PyNone scopes (PyStr s) tenant
  = ([], inl (KeyError (PyStr s))).
Proof.
  intros Hs Hk. unfold get_access_token, subscript, lift.
  rewrite (find_not_key _ s Hk). by destruct s.
Qed.

Lemma get_access_token_unknown_type_witness :
  get_access_token Samples.account_env PyNone PyNone PyNone (PyStr "storage") PyNone
  = ([], inl (KeyError (PyStr "storage"))).
Proof.
  apply (get_access_token_unknown_type Samples.account_env PyNone PyNone PyNone
           "storage"); [discriminate|].
  vm_compute. intros H.
  repeat (apply elem_of_cons in H as [H|H]; [discriminate|]).
  by apply elem_of_nil in H.
Defined.

(** X16: without a resource, a resource type of the mapping selects the
    endpoint attribute the mapping names, and the token is requested for
    the value of that endpoint. *)
Theorem get_access_token_known_type
    e subscription scopes tenant s attribute resource :
  (s, attribute) ∈ cloud_resource_type_mappings →
  endpoints e attribute = inr resource →
  (get_access_token e subscription PyNone scopes (PyStr s) tenant).1
  = [GetEndpoint attribute; ProfileNew;
     ProfileGetRawToken subscription resource scopes tenant].
Proof.
  intros Hin He. unfold cloud_resource_type_mappings in Hin.
  repeat (apply elem_of_cons in Hin as [Hin|Hin];
          [injection Hin as -> ->;
           unfold get_access_token, call, emit, lift, item; simpl; rewrite He;
           simpl;
           destruct (get_raw_token e subscription resource scopes tenant)
             as [ex|[[c s'] t']]; simpl; [done|];
           destruct (c.2 !! "expires_on"); simpl; [|done];
           destruct (c.2 !! "expiresOn"); simpl; done|]).
  by apply elem_of_nil in Hin.
Qed.

Lemma get_access_token_known_type_witness :
  (get_access_token Samples.account_env PyNone PyNone PyNone (PyStr "ms-graph")
     PyNone).1
  = [GetEndpoint "microsoft_graph_resource_id"; ProfileNew;
     ProfileGetRawToken PyNone (PyStr "https://management.azure.com/") PyNone PyNone].
Proof.
  apply (get_access_token_known_type Samples.account_env PyNone PyNone PyNone
           "ms-graph" "microsoft_graph_resource_id"
           (PyStr "https://management.azure.com/")); [|reflexivity].
  do 3 apply list_elem_of_further. apply list_elem_of_here.
Defined.

(** Membership in a trace that is known in full. *)
Ltac trace_present :=
  repeat first [ apply list_elem_of_here | apply list_elem_of_further ].

Ltac trace_absent H :=
  repeat (apply elem_of_cons in H as [H|H]; [discriminate|]);
  by apply elem_of_nil in H.

(** X17: [account_clear] logs out of all accounts whether or not there was
    an ADAL token cache to remove (a missing file is not an error); only if
    removing the file fails for another reason does that error leave the
    command, and then no [Profile] is created and nobody is logged out. *)
Theorem account_clear_outcome e :
  let adal_token_cache := path_join e (get_config_dir e) "accessTokens.json" in
  match os_remove e adal_token_cache with
  | OtherOSError what =>
      account_clear e = ([OsRemove adal_token_cache], inl (OSError what))
  | _ =>
      account_clear e =
        ([OsRemove adal_token_cache] ++
         (if in_cloud_console e then [Warning _CLOUD_CONSOLE_LOGOUT_WARNING] else []) ++
         [ProfileNew; ProfileLogoutAll],
         logout_all e)
  end.
Proof.
  unfold account_clear, _remove_adal_token_cache, when, call, emit, raise.
  simpl.
  destruct (os_remove e _); simpl; [| |reflexivity];
    destruct (in_cloud_console e); reflexivity.
Qed.

(** X18: [logout] logs out the user it is given; only without a username
    (none, or an empty one) does it ask the [Profile] for the current
    account, and then logs out that one. It never logs out anyone else. *)
Theorem logout_user e username user :
  ProfileLogout user ∈ (logout e username).1 →
  if truthy username
  then user = username ∧ ProfileGetCurrentAccountUser ∉ (logout e username).1
  else get_current_account_user e = inr user.
Proof.
  unfold logout, _remove_adal_token_cache, when, call, emit, raise.
  simpl.
  destruct (os_remove e _); simpl;
    destruct (in_cloud_console e); simpl;
    destruct (truthy username); simpl;
    try (intros H; exfalso; trace_absent H);
    try (destruct (get_current_account_user e) as [ex|u]; simpl;
         try (intros H; exfalso; trace_absent H));
    try (destruct (profile_logout e _); simpl);
    intros H;
    repeat (apply elem_of_cons in H as [H|H]; [try discriminate|]);
    try (by apply elem_of_nil in H);
    try (injection H as ->);
    try (split; [done|intros H'; trace_absent H']);
    try done.
Qed.

Lemma logout_user_witness :
  if truthy PyNone
  then PyStr "user@example.com" = PyNone ∧
       ProfileGetCurrentAccountUser ∉ (logout Samples.account_env PyNone).1
  else get_current_account_user Samples.account_env = inr (PyStr "user@example.com").
Proof.
  apply (logout_user Samples.account_env PyNone (PyStr "user@example.com")).
  vm_compute. do 3 apply list_elem_of_further. apply list_elem_of_here.
Defined.

(** X19: [check_cli] ends as its loaders end: with the exception of the
    first loader that fails, raised again as it is, or else normally. Its
    own [CLIError] over the collected exceptions is never what it raises.
    The help is retrieved only if the commands could be loaded, and the
    final OK is printed only if both loaders succeed. *)
Theorem check_cli_outcome e :
  (check_cli e).2 =
    match create_invoker_and_load_cmds_and_args e with
    | inl ex => inl ex
    | inr _ => match get_all_help e with
               | inl ex => inl ex
               | inr _ => inr tt
               end
    end ∧
  (GetAllHelp ∈ (check_cli e).1
   ↔ ∃ u, create_invoker_and_load_cmds_and_args e = inr u) ∧
  (Print "CLI self-test completed: OK" ∈ (check_cli e).1
   ↔ (∃ u, create_invoker_and_load_cmds_and_args e = inr u) ∧
     ∃ u, get_all_help e = inr u).
Proof.
  unfold check_cli, guarded, call, emit, raise.
  destruct (create_invoker_and_load_cmds_and_args e) as [ex|[]]; simpl.
  - split; [done|]. split; split.
    + intros H. exfalso. vm_compute in H. trace_absent H.
    + intros [? [=]].
    + intros H. exfalso. vm_compute in H. trace_absent H.
    + intros [[? [=]] _].
  - destruct (get_all_help e) as [ex|[]]; simpl.
    + split; [done|]. split; split.
      * eauto.
      * intros _. trace_present.
      * intros H. exfalso. vm_compute in H. trace_absent H.
      * intros [_ [? [=]]].
    + split; [done|]. split; split.
      * eauto.
      * intros _. trace_present.
      * eauto.
      * intros _. trace_present.
Qed.

End ProfileAccountFacts.

(** ** [CheckIpAddress] beyond the scenarios *)

Section CommandFacts.
Import AAZ CheckIpAddress CommandTrace.

#[local] Arguments schema_on_200 : simpl never.
#[local] Arguments deserialize : simpl never.

(** X20: a schema builder only adds objects: whatever was on the heap
    before is still there, unchanged, and the cache of the other builder
    is not touched. So building the response schema never disturbs the
    argument schema, and conversely. *)
Theorem schema_builders_only_allocate rg cls :
  (∃ r cls1 new,
     _build_arguments_schema rg cls = Some (r, cls1) ∧
     objects cls1 = objects cls ++ new ∧
     _schema_on_200 cls1 = _schema_on_200 cls) ∧
  (∃ r cls1 new,
     _build_schema_on_200 cls = Some (r, cls1) ∧
     objects cls1 = objects cls ++ new ∧
     _args_schema cls1 = _args_schema cls).
Proof.
  destruct cls as [h a s]. split.
  - destruct a as [r0|].
    + exists r0, (Classes h (Some r0) s), [].
      split; [by apply build_arguments_cached|]. simpl. by rewrite app_nil_r.
    + eexists _, _, _. split; [apply build_arguments_first|]. done.
  - destruct s as [r0|].
    + exists r0, (Classes h a (Some r0)), [].
      split; [by apply build_schema_cached|]. simpl. by rewrite app_nil_r.
    + eexists _, _, _. split; [apply build_schema_first|]. done.
Qed.

(** The required arguments are set once validation has passed, and the
    validated arguments are the three declared ones. *)
Lemma validated_arguments rg raw validated :
  build (arguments rg) raw = inr validated →
  ∃ g n, validated =
           [("resource_group", Some g); ("name", Some n);
            ("ip_address",
             supplied raw ("ip_address",
                           AAZStrArg ["--ip-address"]
                             "The private IP address to be verified." false None))].
Proof.
  unfold build. rewrite arguments_built.
  destruct (validation_errors _ raw) as [|e errs] eqn:E; [|discriminate].
  intros [= <-].
  unfold validation_errors in E. apply app_eq_nil in E as [E _].
  simpl in E. apply app_eq_nil in E as [Eg E]. apply app_eq_nil in E as [En _].
  unfold check_arg in Eg, En. simpl in Eg, En.
  unfold arg_value. simpl.
  destruct (supplied raw ("resource_group", _)) as [g|]; [|discriminate].
  destruct (supplied raw ("name", _)) as [n|]; [|discriminate].
  exists g, n. simpl.
  by destruct (supplied raw ("ip_address", _)).
Qed.

(** X21: validation yields exactly the declared arguments, in
    declaration order: [resource_group] and [name] with a value,
    [ip_address] with the value supplied for it or unset. *)
Theorem validation_yields_declared rg raw validated :
  build (arguments rg) raw = inr validated →
  validated.*1 = ["resource_group"; "name"; "ip_address"] ∧
  (∃ g, assoc "resource_group" validated = Some (Some g)) ∧
  (∃ n, assoc "name" validated = Some (Some n)) ∧
  assoc "ip_address" validated =
    Some (supplied raw ("ip_address",
                        AAZStrArg ["--ip-address"]
                          "The private IP address to be verified." false None)).
Proof.
  intros Hb. destruct (validated_arguments rg raw validated Hb) as (g & n & ->).
  simpl. eauto 10.
Qed.

Lemma validation_yields_declared_witness :
  Samples.scenario_validated.*1 = ["resource_group"; "name"; "ip_address"] ∧
  (∃ g, assoc "resource_group" Samples.scenario_validated = Some (Some g)) ∧
  (∃ n, assoc "name" Samples.scenario_validated = Some (Some n)) ∧
  assoc "ip_address" Samples.scenario_validated =
    Some (supplied Samples.scenario_args
            ("ip_address",
             AAZStrArg ["--ip-address"]
               "The private IP address to be verified." false None)).
Proof.
  apply (validation_yields_declared Samples.resource_group_settings
           Samples.scenario_args Samples.scenario_validated).
  reflexivity.
Defined.

(** X22: the request of the operation, for every resource group, network
    name and subscription: a GET of the URL template with the three
    placeholders replaced, with the query parameter [api-version=2017-10-01],
    preceded by [ipAddress] exactly when the address is set, and the header
    [Accept: application/json]. *)
Theorem request_built ctx g n subscription :
  ctx_arg ctx "resource_group" = VStr g →
  ctx_arg ctx "name" = VStr n →
  subscription_id ctx = Some subscription →
  make_request ctx =
    inr (Request "GET"
           ("/subscriptions/" +:+ subscription +:+ "/resourceGroups/" +:+ g +:+
            "/providers/Microsoft.Network/virtualNetworks/" +:+ n +:+
            "/CheckIPAddressAvailability")
           (match wire_form (ctx_arg ctx "ip_address") with
            | Some ip => [("ipAddress", ip)]
            | None => []
            end ++ [("api-version", "2017-10-01")])
           [("Accept", "application/json")]).
Proof.
  intros Hg Hn Hs.
  unfold make_request, url, url_parameters, query_parameters, header_parameters.
  rewrite Hg, Hn, Hs. simpl.
  unfold serialize_query_param, serialize_param.
  destruct (wire_form (ctx_arg ctx "ip_address")); reflexivity.
Qed.

Lemma request_built_witness :
  make_request (Ctx [("name", Some "vnet2"); ("resource_group", Some "rg2")]
                    ∅ (Some "sub1")) =
    inr (Request "GET"
           ("/subscriptions/" +:+ "sub1" +:+ "/resourceGroups/" +:+ "rg2" +:+
            "/providers/Microsoft.Network/virtualNetworks/" +:+ "vnet2" +:+
            "/CheckIPAddressAvailability")
           (match wire_form
                    (ctx_arg (Ctx [("name", Some "vnet2");
                                   ("resource_group", Some "rg2")] ∅ (Some "sub1"))
                       "ip_address") with
            | Some ip => [("ipAddress", ip)]
            | None => []
            end ++ [("api-version", "2017-10-01")])
           [("Accept", "application/json")]).
Proof.
  apply (request_built
           (Ctx [("name", Some "vnet2"); ("resource_group", Some "rg2")]
                ∅ (Some "sub1")) "rg2" "vnet2" "sub1"); reflexivity.
Defined.

(** X24: an invocation hands at most one request to the transport (the
    operation does not retry), and only the request built from the
    validated arguments; when validation fails it hands over none. *)
Theorem at_most_one_request rg send subscription raw :
  match sends (_handler rg send subscription raw).1 with
  | [] => True
  | [request] =>
      ∃ validated,
        build (arguments rg) raw = inr validated ∧
        make_request (Ctx validated ∅ subscription) = inr request
  | _ => False
  end ∧
  (∀ errs, build (arguments rg) raw = inl errs →
           sends (_handler rg send subscription raw).1 = []).
Proof.
  unfold _handler, _execute_operations, VirtualNetworksCheckIPAddressAvailability.
  destruct (build (arguments rg) raw) as [errs|validated]; simpl; [done|].
  split; [|discriminate].
  destruct (make_request _) as [e|request] eqn:Hr; simpl; [done|].
  destruct (send request) as [e|session]; simpl; [eauto|].
  rewrite orb_false_r.
  destruct (status_code session =? 200)%Z; simpl; [|eauto].
  destruct (on_200 _ session) as [e|ctx']; simpl; [eauto|].
  destruct (_output ctx'); simpl; eauto.
Qed.

(** X25: the handler never ends in a Python error of its own: the output
    step always finds the variable [instance], because it only runs after
    [on_200] has set it. *)
Theorem handler_never_crashes rg send subscription raw what :
  (_handler rg send subscription raw).2 ≠ Crashed what.
Proof.
  destruct (build (arguments rg) raw) as [errs|validated] eqn:Hb.
  - unfold _handler. by rewrite Hb.
  - pose proof (handler_validated rg send subscription raw validated Hb) as H.
    simpl in H.
    destruct (VirtualNetworksCheckIPAddressAvailability send _).2 as [e|ctx'].
    + destruct H as [_ ->]. done.
    + destruct H as [_ (v & _ & ->)]. done.
Qed.







End CommandFacts.
